(** * Research agent: configuration, retriever construction and indexing

    A shallow embedding of the research agent's ingestion path:

    - [shared/configuration.ts]          : [ensureBaseConfiguration]
    - [retrieval-graph/configuration.ts] : [ensureAgentConfiguration]
    - [shared/retrieval.ts]              : [makeTextEmbeddings], the three
      backend constructors and [makeRetriever]
    - [index-graph/graph.ts]             : [indexDocs] and the run of the
      one-node graph around it

    TypeScript values are modelled at their declared types.  An optional
    property is an [option]; [process.env] and plain objects are finite maps;
    a thrown exception is the left injection of a sum.  Code that awaits
    external services runs in a small trace monad that records, in program
    order, when every awaited operation is started and when it settles.
    Every call into a vendor library (a constructor, a factory method) may
    throw; whether it does is a fact of the world the code runs in. *)

From Stdlib Require Import ZArith String Ascii List Bool Lia.
From stdpp Require Import base gmap strings list.

Set Warnings "-register-all".
#[local] Open Scope string_scope.
#[local] Open Scope list_scope.
#[local] Open Scope Z_scope.

(** ** JavaScript values and strings *)

(** Values of type [any]: what [JSON.parse] produces and what metadata and
    search filters hold.  Numbers are kept as integers; no property below
    depends on the arithmetic of numbers. *)
Inductive JsVal : Type :=
| JNull
| JBool (b : bool)
| JNum (n : Z)
| JStr (s : string)
| JArr (items : list JsVal)
| JObj (fields : gmap string JsVal).

(** [s.indexOf(pat)]: position of the first occurrence of [pat] in [s],
    or [-1].  [from] is the position of the head of [s] in the whole string. *)
Fixpoint indexOf_from (s pat : string) (from : Z) : Z :=
  if String.prefix pat s then from
  else match s with
       | EmptyString => -1
       | String _ rest => indexOf_from rest pat (from + 1)
       end.

Definition indexOf (s pat : string) : Z := indexOf_from s pat 0.

(** Relative index resolution shared by [slice]'s two arguments. *)
Definition slice_bound (len i : Z) : Z :=
  if i <? 0 then Z.max (len + i) 0 else Z.min i len.

(** [s.slice(start, end)]; [end_ = None] is the one-argument form. *)
Definition slice (s : string) (start : Z) (end_ : option Z) : string :=
  let len := Z.of_nat (String.length s) in
  let lo := slice_bound len start in
  let hi := match end_ with
            | Some e => slice_bound len e
            | None => len
            end in
  String.substring (Z.to_nat lo) (Z.to_nat (hi - lo)) s.

(** [s.split(sep)] for a one-character separator. *)
Fixpoint split (sep : ascii) (s : string) : list string :=
  match s with
  | EmptyString => [EmptyString]
  | String c rest =>
      if Ascii.eqb c sep then EmptyString :: split sep rest
      else match split sep rest with
           | [] => [String c EmptyString]
           | piece :: pieces => String c piece :: pieces
           end
  end.

(** Truthiness, per declared type: the empty string is falsy, every object
    is truthy. *)
Class Truthy (A : Type) := truthy : A -> bool.

#[global] Instance string_truthy : Truthy string :=
  fun s => negb (String.eqb s "").

#[global] Instance object_truthy {V} : Truthy (gmap string V) :=
  fun _ => true.

(** [x || d] where [x] may be [undefined]. *)
Definition js_or {A} `{Truthy A} (x : option A) (d : A) : A :=
  match x with
  | Some v => if truthy v then v else d
  | None => d
  end.

(** [!x] where [x] may be [undefined]. *)
Definition js_not {A} `{Truthy A} (x : option A) : bool :=
  match x with
  | Some v => negb (truthy v)
  | None => true
  end.

(** ** Exceptions *)

(** [Error msg] is [new Error(msg)] thrown by this code base; [Rejected]
    is a failure raised by an external service or library call. *)
Inductive Exn : Type :=
| Error (message : string)
| Rejected (service reason : string).

(** ** Embedding providers *)

(** An embeddings instance: the class and the model it was built for. *)
Inductive Embeddings : Type :=
| GeminiEmbeddings (model : string)
| OpenAIEmbeddings (model : string)
| CohereEmbeddings (model : string).

(** ** Configuration ([shared/configuration.ts],
       [retrieval-graph/configuration.ts]) *)

(** [config.configurable], read at the type the code casts it to:
    [Partial<typeof AgentConfigurationAnnotation.State>].  [retrieverProvider]
    is kept as a string, as [makeRetriever] has a branch for values outside
    its declared union. *)
Record Configurable : Type := {
  cfg_embeddingModel : option string;
  cfg_retrieverProvider : option string;
  cfg_searchKwargs : option (gmap string JsVal);
  cfg_queryModel : option string;
  cfg_responseModel : option string;
  cfg_routerSystemPrompt : option string;
  cfg_moreInfoSystemPrompt : option string;
  cfg_generalSystemPrompt : option string;
  cfg_researchPlanSystemPrompt : option string;
  cfg_generateQueriesSystemPrompt : option string;
  cfg_responseSystemPrompt : option string
}.

(** The object literal [{}] at that type. *)
Definition empty_configurable : Configurable :=
  {| cfg_embeddingModel := None; cfg_retrieverProvider := None;
     cfg_searchKwargs := None; cfg_queryModel := None;
     cfg_responseModel := None; cfg_routerSystemPrompt := None;
     cfg_moreInfoSystemPrompt := None; cfg_generalSystemPrompt := None;
     cfg_researchPlanSystemPrompt := None;
     cfg_generateQueriesSystemPrompt := None;
     cfg_responseSystemPrompt := None |}.

#[global] Instance configurable_truthy : Truthy Configurable :=
  fun _ => true.

Record RunnableConfig : Type := {
  configurable : option Configurable
}.

(** [config?.configurable || {}]; [config] itself may be [undefined]. *)
Definition configurable_of (config : option RunnableConfig) : Configurable :=
  js_or (match config with
         | Some c => configurable c
         | None => None
         end) empty_configurable.

Record BaseConfiguration : Type := {
  embeddingModel : string;
  retrieverProvider : string;
  searchKwargs : gmap string JsVal
}.

Definition ensureBaseConfiguration (config : option RunnableConfig)
  : BaseConfiguration :=
  let configurable := configurable_of config in
  {| embeddingModel :=
       js_or (cfg_embeddingModel configurable) "gemini/gemini-embedding-001";
     retrieverProvider :=
       js_or (cfg_retrieverProvider configurable) "elastic-local";
     searchKwargs := js_or (cfg_searchKwargs configurable) ∅ |}.

(** The agent configuration is the base configuration spread into a larger
    object. *)
Record AgentConfiguration : Type := {
  baseConfig : BaseConfiguration;
  queryModel : string;
  responseModel : string;
  routerSystemPrompt : string;
  moreInfoSystemPrompt : string;
  generalSystemPrompt : string;
  researchPlanSystemPrompt : string;
  generateQueriesSystemPrompt : string;
  responseSystemPrompt : string
}.

Section Prompts.

(** The six prompt constants of [retrieval-graph/prompts.ts]; their text is
    irrelevant to the configuration logic. *)
Variables ROUTER_SYSTEM_PROMPT MORE_INFO_SYSTEM_PROMPT
          GENERAL_SYSTEM_PROMPT RESEARCH_PLAN_SYSTEM_PROMPT
          GENERATE_QUERIES_SYSTEM_PROMPT RESPONSE_SYSTEM_PROMPT : string.

Definition ensureAgentConfiguration (config : option RunnableConfig)
  : AgentConfiguration :=
  let configurable := configurable_of config in
  let baseConfig := ensureBaseConfiguration config in
  {| baseConfig := baseConfig;
     queryModel :=
       js_or (cfg_queryModel configurable) "gemini/gemini-2.5-flash";
     responseModel :=
       js_or (cfg_responseModel configurable) "gemini/gemini-2.5-flash";
     routerSystemPrompt :=
       js_or (cfg_routerSystemPrompt configurable) ROUTER_SYSTEM_PROMPT;
     moreInfoSystemPrompt :=
       js_or (cfg_moreInfoSystemPrompt configurable) MORE_INFO_SYSTEM_PROMPT;
     generalSystemPrompt :=
       js_or (cfg_generalSystemPrompt configurable) GENERAL_SYSTEM_PROMPT;
     researchPlanSystemPrompt :=
       js_or (cfg_researchPlanSystemPrompt configurable)
             RESEARCH_PLAN_SYSTEM_PROMPT;
     generateQueriesSystemPrompt :=
       js_or (cfg_generateQueriesSystemPrompt configurable)
             GENERATE_QUERIES_SYSTEM_PROMPT;
     responseSystemPrompt :=
       js_or (cfg_responseSystemPrompt configurable)
             RESPONSE_SYSTEM_PROMPT |}.

End Prompts.

(** ** Documents, vector stores and retrievers *)

(** LangChain's [Document]: the canonical shape, content plus metadata. *)
Record Document : Type := {
  pageContent : string;
  metadata : gmap string JsVal
}.

Inductive ElasticAuth : Type :=
| BasicAuth (username password : string)
| ApiKeyAuth (apiKey : string).

(** The three vector stores, each with the arguments its constructor is
    given. *)
Inductive VectorStore : Type :=
| ElasticVectorSearch (embeddings : Embeddings)
    (node : string) (auth : ElasticAuth) (indexName : string)
| PineconeStore (embeddings : Embeddings) (pineconeIndex : string)
| MongoDBAtlasVectorSearch (embeddings : Embeddings)
    (uri dbName collectionName textKey embeddingKey indexName : string).

(** [vectorStore.asRetriever({ filter })]. *)
Record VectorStoreRetriever : Type := asRetriever {
  vectorStore : VectorStore;
  filter : gmap string JsVal
}.

(** The synchronous calls into the vendor libraries, each with the arguments
    it is given: [new GeminiEmbeddings({ model })] and its two siblings,
    [new Client({ node, auth })], [new ElasticVectorSearch(...)] and
    [new MongoDBAtlasVectorSearch(...)], [vectorStore.asRetriever(...)],
    [new PineconeClient()], [pinecone.Index(name)], [new MongoClient(uri)]
    and [client.db(name).collection(name)]. *)
Inductive Construction : Type :=
| NewEmbeddings (embeddings : Embeddings)
| NewClient (node : string) (auth : ElasticAuth)
| NewVectorStore (store : VectorStore)
| AsRetriever (store : VectorStore) (filter : gmap string JsVal)
| NewPineconeClient
| PineconeIndex (indexName : string)
| NewMongoClient (uri : string)
| MongoCollection (uri dbName collectionName : string).

(** ** Effects *)

(** The awaited operations. *)
Inductive Op : Type :=
| ReadFile (path encoding : string)
| FromExistingIndex (embeddings : Embeddings) (pineconeIndex : string)
| AddDocuments (retriever : VectorStoreRetriever) (docs : list Document).

(** What a run leaves behind, in program order: the start and the settlement
    of every awaited operation, and every call of the shared document
    reducer. *)
Inductive Event : Type :=
| Started (op : Op)
| Fulfilled (op : Op)
| Failed (op : Op)
| ReduceDocs (existing : list Document) (newDocs : JsVal).

(** A computation is its trace together with either the exception that ended
    it or its value.  For an [async] function the left injection is a
    rejected promise and the right one a fulfilled promise. *)
Definition Eff (A : Type) : Type := list Event * (Exn + A).

Definition ret {A} (a : A) : Eff A := ([], inr a).

Definition throw {A} (e : Exn) : Eff A := ([], inl e).

Definition bind {A B} (m : Eff A) (k : A -> Eff B) : Eff B :=
  match m with
  | (t, inl e) => (t, inl e)
  | (t, inr a) => let '(t', r) := k a in (t ++ t', r)
  end.

Notation "x <- m ;; k" := (bind m (fun x => k))
  (at level 100, m at next level, right associativity).

(** A synchronous call that may throw. *)
Definition lift {A} (r : Exn + A) : Eff A := ([], r).

(** [await op]: the operation is started, the caller is suspended until it
    settles, and only then continues (or rethrows). *)
Definition await {A} (op : Op) (outcome : Exn + A) : Eff A :=
  match outcome with
  | inr a => ([Started op; Fulfilled op], inr a)
  | inl e => ([Started op; Failed op], inl e)
  end.

Definition trace {A} (m : Eff A) : list Event := fst m.
Definition outcome {A} (m : Eff A) : Exn + A := snd m.

(** ** The environment a run executes in *)

Record World : Type := {
  (** [process.env] *)
  env : gmap string string;
  (** the file system, path to UTF-8 content *)
  files : gmap string string;
  (** why Pinecone refuses an index, if it does *)
  pinecone_refuses : Embeddings -> string -> option string;
  (** why the store refuses a batch, if it does *)
  store_refuses : VectorStoreRetriever -> list Document -> option string;
  (** why a library call throws, if it does (a missing API key, a malformed
      URL, a class the package does not export) *)
  library_refuses : Construction -> option string
}.

(** A synchronous library call: it throws, or it returns what it built. *)
Definition construct_sync {A} (w : World) (call : Construction) (built : A)
  : Exn + A :=
  match library_refuses w call with
  | Some reason => inl (Rejected "library" reason)
  | None => inr built
  end.

Definition construct {A} (w : World) (call : Construction) (built : A)
  : Eff A :=
  lift (construct_sync w call built).

(** [fs.readFile(path, "utf-8")] *)
Definition readFile (w : World) (path encoding : string) : Eff string :=
  await (ReadFile path encoding)
        (match files w !! path with
         | Some content => inr content
         | None => inl (Rejected "fs" ("ENOENT: " +:+ path))
         end).

(** [PineconeStore.fromExistingIndex(embeddings, { pineconeIndex })] *)
Definition fromExistingIndex (w : World)
    (embeddings : Embeddings) (pineconeIndex : string) : Eff VectorStore :=
  await (FromExistingIndex embeddings pineconeIndex)
        (match pinecone_refuses w embeddings pineconeIndex with
         | Some reason => inl (Rejected "pinecone" reason)
         | None => inr (PineconeStore embeddings pineconeIndex)
         end).

(** [retriever.addDocuments(docs)]: fulfilled once the store has
    acknowledged the batch. *)
Definition addDocuments (w : World)
    (retriever : VectorStoreRetriever) (docs : list Document) : Eff unit :=
  await (AddDocuments retriever docs)
        (match store_refuses w retriever docs with
         | Some reason => inl (Rejected "store" reason)
         | None => inr tt
         end).

(** The value of an optional string once a guard has excluded the falsy
    cases. *)
Definition narrowed (x : option string) : string := default "" x.

(** ** Retriever construction ([shared/retrieval.ts]) *)

Definition makeTextEmbeddings (w : World) (modelName : string)
  : Exn + Embeddings :=
  let index := indexOf modelName "/" in
  let '(provider, model) :=
    if index =? -1 then ("gemini", modelName)
    else (slice modelName 0 (Some index), slice modelName (index + 1) None) in
  if String.eqb provider "gemini" then
    construct_sync w (NewEmbeddings (GeminiEmbeddings model))
                   (GeminiEmbeddings model)
  else if String.eqb provider "openai" then
    construct_sync w (NewEmbeddings (OpenAIEmbeddings model))
                   (OpenAIEmbeddings model)
  else if String.eqb provider "cohere" then
    construct_sync w (NewEmbeddings (CohereEmbeddings model))
                   (CohereEmbeddings model)
  else inl (Error ("Unsupported embedding provider: " +:+ provider)).

Definition makeElasticRetriever (w : World)
    (configuration : BaseConfiguration) (embeddingModel : Embeddings)
  : Eff VectorStoreRetriever :=
  let elasticUrl := env w !! "ELASTICSEARCH_URL" in
  if js_not elasticUrl then
    throw (Error "ELASTICSEARCH_URL environment variable is not defined")
  else
    auth <- (if String.eqb (retrieverProvider configuration) "elastic-local"
             then
               let username := env w !! "ELASTICSEARCH_USER" in
               let password := env w !! "ELASTICSEARCH_PASSWORD" in
               if js_not username || js_not password then
                 throw (Error "ELASTICSEARCH_USER or ELASTICSEARCH_PASSWORD environment variable is not defined")
               else ret (BasicAuth (narrowed username) (narrowed password))
             else
               let apiKey := env w !! "ELASTICSEARCH_API_KEY" in
               if js_not apiKey then
                 throw (Error "ELASTICSEARCH_API_KEY environment variable is not defined")
               else ret (ApiKeyAuth (narrowed apiKey))) ;;
    _ <- construct w (NewClient (narrowed elasticUrl) auth) tt ;;
    let store :=
      ElasticVectorSearch embeddingModel (narrowed elasticUrl) auth
                          "langchain_index" in
    vectorStore <- construct w (NewVectorStore store) store ;;
    let filter := js_or (Some (searchKwargs configuration)) ∅ in
    construct w (AsRetriever vectorStore filter)
              (asRetriever vectorStore filter).

Definition makePineconeRetriever (w : World)
    (configuration : BaseConfiguration) (embeddingModel : Embeddings)
  : Eff VectorStoreRetriever :=
  let indexName := env w !! "PINECONE_INDEX_NAME" in
  if js_not indexName then
    throw (Error "PINECONE_INDEX_NAME environment variable is not defined")
  else
    _ <- construct w NewPineconeClient tt ;;
    _ <- construct w (PineconeIndex (narrowed indexName)) tt ;;
    vectorStore <- fromExistingIndex w embeddingModel (narrowed indexName) ;;
    let filter := js_or (Some (searchKwargs configuration)) ∅ in
    construct w (AsRetriever vectorStore filter)
              (asRetriever vectorStore filter).

Definition makeMongoDBRetriever (w : World)
    (configuration : BaseConfiguration) (embeddingModel : Embeddings)
  : Eff VectorStoreRetriever :=
  if js_not (env w !! "MONGODB_URI") then
    throw (Error "MONGODB_URI environment variable is not defined")
  else
    let uri := narrowed (env w !! "MONGODB_URI") in
    _ <- construct w (NewMongoClient uri) tt ;;
    let namespace := "langgraph_retrieval_agent.default" in
    let parts := split "." namespace in
    let dbName := nth 0 parts "" in
    let collectionName := nth 1 parts "" in
    _ <- construct w (MongoCollection uri dbName collectionName) tt ;;
    let store :=
      MongoDBAtlasVectorSearch embeddingModel uri dbName collectionName
                               "text" "embedding" "vector_index" in
    vectorStore <- construct w (NewVectorStore store) store ;;
    let filter := js_or (Some (searchKwargs configuration)) ∅ in
    construct w (AsRetriever vectorStore filter)
              (asRetriever vectorStore filter).

Definition makeRetriever (w : World) (config : RunnableConfig)
  : Eff VectorStoreRetriever :=
  let configuration := ensureBaseConfiguration (Some config) in
  embeddings <- lift (makeTextEmbeddings w (embeddingModel configuration)) ;;
  let provider := retrieverProvider configuration in
  if String.eqb provider "elastic" then
    makeElasticRetriever w configuration embeddings
  else if String.eqb provider "elastic-local" then
    makeElasticRetriever w configuration embeddings
  else if String.eqb provider "pinecone" then
    makePineconeRetriever w configuration embeddings
  else if String.eqb provider "mongodb" then
    makeMongoDBRetriever w configuration embeddings
  else
    throw (Error ("Unrecognized retrieverProvider in configuration: "
                  +:+ provider)).

(** ** The indexing node ([index-graph/graph.ts]) *)

Record IndexState : Type := {
  docs : list Document
}.

(** The update a node returns for the [docs] channel; the source returns the
    string ["delete"]. *)
Record IndexUpdate : Type := {
  upd_docs : JsVal
}.

(** The index configuration extends the base configuration with the path of
    the fallback documents. *)
Record IndexConfiguration : Type := {
  indexBase : BaseConfiguration;
  docsFile : string
}.

Section IndexGraph.

(** Imports of [graph.ts] that live outside the files studied here:
    [JSON.parse] ([None] when it throws a [SyntaxError]), [reduceDocs] of
    [shared/state.ts] and [ensureIndexConfiguration] of
    [index-graph/configuration.ts]. *)
Variable JSON_parse : string -> option JsVal.
Variable reduceDocs : list Document -> JsVal -> list Document.
Variable ensureIndexConfiguration : RunnableConfig -> IndexConfiguration.

Definition parseJSON (text : string) : Eff JsVal :=
  lift (match JSON_parse text with
        | Some v => inr v
        | None => inl (Rejected "JSON.parse" "SyntaxError")
        end).

Definition callReduceDocs (existing : list Document) (newDocs : JsVal)
  : Eff (list Document) :=
  ([ReduceDocs existing newDocs], inr (reduceDocs existing newDocs)).

Definition indexDocs (w : World) (state : IndexState)
    (config : option RunnableConfig) : Eff IndexUpdate :=
  match config with
  | None => throw (Error "Configuration required to run index_docs.")
  | Some config =>
      let configuration := ensureIndexConfiguration config in
      let docs := docs state in
      docs <- (if (length docs =? 0)%nat then
                 fileContent <- readFile w (docsFile configuration) "utf-8" ;;
                 serializedDocs <- parseJSON fileContent ;;
                 callReduceDocs [] serializedDocs
               else ret docs) ;;
      retriever <- makeRetriever w config ;;
      _ <- addDocuments w retriever docs ;;
      ret {| upd_docs := JStr "delete" |}
  end.

(** Whether a value written to the [docs] channel is the string ["delete"]
    that [indexDocs] returns. *)
Definition is_delete (value : JsVal) : bool :=
  match value with
  | JStr s => String.eqb s "delete"
  | _ => false
  end.

(** Modelled from the spec: a write to the [docs] channel of
    [IndexStateAnnotation].  The channel is declared in [index-graph/state.ts],
    which is not among the files studied; [graph.ts] shows its two sides, the
    import of [reduceDocs] and the value ["delete"] that [indexDocs] returns
    for it.  Per the spec the indexer converts raw records to the canonical
    shape by a reduce step before submission, and the batch is discarded after
    a successful load: a written value is merged into the channel by
    [reduceDocs], and the value ["delete"] empties the channel. *)
Definition write_docs (state : IndexState) (value : JsVal) : Eff IndexState :=
  if is_delete value then ret {| docs := [] |}
  else
    docs <- callReduceDocs (docs state) value ;;
    ret {| docs := docs |}.

(** Modelled from the spec: [runIndexing(batch | none, runtimeConfig)], one
    run of the graph that [graph.ts] builds, whose only node is [indexDocs]
    between [START] and [END].  The channel starts empty, the submitted batch
    is written to it, the node runs on the resulting state, and the update it
    returns is written back. *)
Definition runIndexing (w : World) (batch : option JsVal)
    (config : option RunnableConfig) : Eff IndexState :=
  let initial := {| docs := [] |} in
  state <- (match batch with
            | Some value => write_docs initial value
            | None => ret initial
            end) ;;
  update <- indexDocs w state config ;;
  write_docs state (upd_docs update).

End IndexGraph.

(** ** The ReAct agent's configuration

    A second configuration constructor of the repository.  It reads
    [config.configurable] as the [Record<string, any>] it is declared to be
    and defaults with [??] where the research agent uses [||]. *)

Module ReactAgent.

(** [x ?? d]: only [undefined] and [null] give way to the default. *)
Definition nullish_or (x : option JsVal) (d : JsVal) : JsVal :=
  match x with
  | None => d
  | Some JNull => d
  | Some v => v
  end.

Record RunnableConfig : Type := {
  configurable : option (gmap string JsVal)
}.

(** The values of [configurable] are [any] and reach the result unchecked. *)
Record Configuration : Type := {
  systemPromptTemplate : JsVal;
  model : JsVal
}.

Section Prompt.

(** The constant of the agent's [prompts.ts]. *)
Variable SYSTEM_PROMPT_TEMPLATE : string.

Definition ensureConfiguration (config : RunnableConfig) : Configuration :=
  let configurable := match configurable config with
                      | Some c => c
                      | None => ∅
                      end in
  {| systemPromptTemplate :=
       nullish_or (configurable !! "systemPromptTemplate")
                  (JStr SYSTEM_PROMPT_TEMPLATE);
     model := nullish_or (configurable !! "model") (JStr "gemini-2.5-flash") |}.

End Prompt.

End ReactAgent.

(** * Vocabulary of the properties *)

(** Whether character [c] occurs in [s]. *)
Fixpoint occurs (c : ascii) (s : string) : bool :=
  match s with
  | EmptyString => false
  | String a rest => Ascii.eqb a c || occurs c rest
  end.

(** The providers [makeTextEmbeddings] has a case for. *)
Definition supported_provider (provider : string) : Prop :=
  provider = "gemini" \/ provider = "openai" \/ provider = "cohere".

(** The [switch] of [makeTextEmbeddings], on an already split name. *)
Definition embeddings_case (w : World) (provider model : string)
  : Exn + Embeddings :=
  if String.eqb provider "gemini" then
    construct_sync w (NewEmbeddings (GeminiEmbeddings model))
                   (GeminiEmbeddings model)
  else if String.eqb provider "openai" then
    construct_sync w (NewEmbeddings (OpenAIEmbeddings model))
                   (OpenAIEmbeddings model)
  else if String.eqb provider "cohere" then
    construct_sync w (NewEmbeddings (CohereEmbeddings model))
                   (CohereEmbeddings model)
  else inl (Error ("Unsupported embedding provider: " +:+ provider)).

(** The error of [makeTextEmbeddings]'s [default] branch. *)
Definition unsupported_provider (provider : string) : Exn :=
  Error ("Unsupported embedding provider: " +:+ provider).

(** A world in which no library call throws. *)
Definition libraries_cooperate (w : World) : Prop :=
  forall call, library_refuses w call = None.

(** The recognized options of string type. *)
Inductive StringOption : Type :=
| EmbeddingModel | RetrieverProvider | QueryModel | ResponseModel
| RouterSystemPrompt | MoreInfoSystemPrompt | GeneralSystemPrompt
| ResearchPlanSystemPrompt | GenerateQueriesSystemPrompt
| ResponseSystemPrompt.

(** What the caller supplied for an option. *)
Definition supplied (o : StringOption) (c : Configurable) : option string :=
  match o with
  | EmbeddingModel => cfg_embeddingModel c
  | RetrieverProvider => cfg_retrieverProvider c
  | QueryModel => cfg_queryModel c
  | ResponseModel => cfg_responseModel c
  | RouterSystemPrompt => cfg_routerSystemPrompt c
  | MoreInfoSystemPrompt => cfg_moreInfoSystemPrompt c
  | GeneralSystemPrompt => cfg_generalSystemPrompt c
  | ResearchPlanSystemPrompt => cfg_researchPlanSystemPrompt c
  | GenerateQueriesSystemPrompt => cfg_generateQueriesSystemPrompt c
  | ResponseSystemPrompt => cfg_responseSystemPrompt c
  end.

(** What the constructed configuration holds for an option. *)
Definition configured (o : StringOption) (a : AgentConfiguration) : string :=
  match o with
  | EmbeddingModel => embeddingModel (baseConfig a)
  | RetrieverProvider => retrieverProvider (baseConfig a)
  | QueryModel => queryModel a
  | ResponseModel => responseModel a
  | RouterSystemPrompt => routerSystemPrompt a
  | MoreInfoSystemPrompt => moreInfoSystemPrompt a
  | GeneralSystemPrompt => generalSystemPrompt a
  | ResearchPlanSystemPrompt => researchPlanSystemPrompt a
  | GenerateQueriesSystemPrompt => generateQueriesSystemPrompt a
  | ResponseSystemPrompt => responseSystemPrompt a
  end.

(** The two options the base configuration holds. *)
Definition base_configured (o : StringOption) (b : BaseConfiguration)
  : option string :=
  match o with
  | EmbeddingModel => Some (embeddingModel b)
  | RetrieverProvider => Some (retrieverProvider b)
  | _ => None
  end.

Section Defaults.

Variables ROUTER_SYSTEM_PROMPT MORE_INFO_SYSTEM_PROMPT
          GENERAL_SYSTEM_PROMPT RESEARCH_PLAN_SYSTEM_PROMPT
          GENERATE_QUERIES_SYSTEM_PROMPT RESPONSE_SYSTEM_PROMPT : string.

(** The documented default of each option. *)
Definition documented_default (o : StringOption) : string :=
  match o with
  | EmbeddingModel => "gemini/gemini-embedding-001"
  | RetrieverProvider => "elastic-local"
  | QueryModel => "gemini/gemini-2.5-flash"
  | ResponseModel => "gemini/gemini-2.5-flash"
  | RouterSystemPrompt => ROUTER_SYSTEM_PROMPT
  | MoreInfoSystemPrompt => MORE_INFO_SYSTEM_PROMPT
  | GeneralSystemPrompt => GENERAL_SYSTEM_PROMPT
  | ResearchPlanSystemPrompt => RESEARCH_PLAN_SYSTEM_PROMPT
  | GenerateQueriesSystemPrompt => GENERATE_QUERIES_SYSTEM_PROMPT
  | ResponseSystemPrompt => RESPONSE_SYSTEM_PROMPT
  end.

End Defaults.

(** The retrieval backends. *)
Inductive Backend : Type := Elastic | Pinecone | MongoDB.

Definition backend_of (store : VectorStore) : Backend :=
  match store with
  | ElasticVectorSearch _ _ _ _ => Elastic
  | PineconeStore _ _ => Pinecone
  | MongoDBAtlasVectorSearch _ _ _ _ _ _ _ => MongoDB
  end.

(** The provider values the configuration declares. *)
Definition enumerated_provider (provider : string) : Prop :=
  provider = "elastic" \/ provider = "elastic-local"
  \/ provider = "pinecone" \/ provider = "mongodb".

(** The backend each declared provider value stands for. *)
Definition selected_backend (provider : string) : option Backend :=
  if String.eqb provider "elastic" then Some Elastic
  else if String.eqb provider "elastic-local" then Some Elastic
  else if String.eqb provider "pinecone" then Some Pinecone
  else if String.eqb provider "mongodb" then Some MongoDB
  else None.

(** The environment variables each provider needs. *)
Definition required_credentials (provider : string) : list string :=
  if String.eqb provider "elastic-local" then
    ["ELASTICSEARCH_URL"; "ELASTICSEARCH_USER"; "ELASTICSEARCH_PASSWORD"]
  else if String.eqb provider "elastic" then
    ["ELASTICSEARCH_URL"; "ELASTICSEARCH_API_KEY"]
  else if String.eqb provider "pinecone" then ["PINECONE_INDEX_NAME"]
  else if String.eqb provider "mongodb" then ["MONGODB_URI"]
  else [].

(** Events a retriever constructor can leave. *)
Definition pinecone_event (e : Event) : bool :=
  match e with
  | Started (FromExistingIndex _ _)
  | Fulfilled (FromExistingIndex _ _)
  | Failed (FromExistingIndex _ _) => true
  | _ => false
  end.

(** File reads started in a trace. *)
Definition read_of (e : Event) : option string :=
  match e with
  | Started (ReadFile path _) => Some path
  | _ => None
  end.

Definition reads (t : list Event) : list string := omap read_of t.

(** Batches handed to the store in a trace. *)
Definition submission_of (e : Event) : option (list Document) :=
  match e with
  | Started (AddDocuments _ batch) => Some batch
  | _ => None
  end.

Definition submissions (t : list Event) : list (list Document) :=
  omap submission_of t.

(** Calls of the reducer in a trace. *)
Definition reduction_of (e : Event) : option (list Document * JsVal) :=
  match e with
  | ReduceDocs existing newDocs => Some (existing, newDocs)
  | _ => None
  end.

Definition reductions (t : list Event) : list (list Document * JsVal) :=
  omap reduction_of t.

(** The update that clears the [docs] channel. *)
Definition delete_docs : IndexUpdate := {| upd_docs := JStr "delete" |}.

(** The error of [makeRetriever]'s [default] branch. *)
Definition unrecognized_provider (provider : string) : Exn :=
  Error ("Unrecognized retrieverProvider in configuration: " +:+ provider).

(** The last three statements of [indexDocs], for the batch it settled on:
    build the retriever, hand it the batch, return the update. *)
Definition submit (w : World) (config : RunnableConfig)
    (batch : list Document) : Eff IndexUpdate :=
  retriever <- makeRetriever w config ;;
  _ <- addDocuments w retriever batch ;;
  ret delete_docs.

(** [submit] ends in one of three ways. *)
Inductive SubmitEnd (w : World) (batch : list Document)
  : list Event -> Exn + VectorStoreRetriever -> Exn + IndexUpdate -> Prop :=
| NoRetriever e :
    SubmitEnd w batch [] (inl e) (inl e)
| Refused retriever reason :
    store_refuses w retriever batch = Some reason ->
    SubmitEnd w batch
      [Started (AddDocuments retriever batch);
       Failed (AddDocuments retriever batch)]
      (inr retriever) (inl (Rejected "store" reason))
| Acknowledged retriever :
    store_refuses w retriever batch = None ->
    SubmitEnd w batch
      [Started (AddDocuments retriever batch);
       Fulfilled (AddDocuments retriever batch)]
      (inr retriever) (inr delete_docs).


(** ** Sample inputs *)

(** An environment with the credentials of a local Elasticsearch. *)
Definition local_env : gmap string string :=
  <["ELASTICSEARCH_URL" := "http://localhost:9200"]>
    (<["ELASTICSEARCH_USER" := "elastic"]>
       (<["ELASTICSEARCH_PASSWORD" := "changeme"]> ∅)).

(** A machine with that environment and the fallback file, on which every
    service accepts what it is given and no library call throws. *)
Definition local_world : World :=
  {| env := local_env;
     files := {[ "sample_docs.json" := "[{}]" ]};
     pinecone_refuses := fun _ _ => None;
     store_refuses := fun _ _ => None;
     library_refuses := fun _ => None |}.

(** The same machine with no credential set. *)
Definition bare_world : World :=
  {| env := ∅;
     files := {[ "sample_docs.json" := "[{}]" ]};
     pinecone_refuses := fun _ _ => None;
     store_refuses := fun _ _ => None;
     library_refuses := fun _ => None |}.

Definition default_config : RunnableConfig := {| configurable := None |}.

Definition chroma_config : RunnableConfig :=
  {| configurable :=
       Some {| cfg_embeddingModel := None;
               cfg_retrieverProvider := Some "chroma";
               cfg_searchKwargs := None;
               cfg_queryModel := None;
               cfg_responseModel := None;
               cfg_routerSystemPrompt := None;
               cfg_moreInfoSystemPrompt := None;
               cfg_generalSystemPrompt := None;
               cfg_researchPlanSystemPrompt := None;
               cfg_generateQueriesSystemPrompt := None;
               cfg_responseSystemPrompt := None |} |}.

(** A configuration that sets two options to the empty string and one to a
    non-empty value. *)
Definition blank_configurable : Configurable :=
  {| cfg_embeddingModel := Some "";
     cfg_retrieverProvider := Some "pinecone";
     cfg_searchKwargs := None;
     cfg_queryModel := None;
     cfg_responseModel := None;
     cfg_routerSystemPrompt := Some "";
     cfg_moreInfoSystemPrompt := None;
     cfg_generalSystemPrompt := None;
     cfg_researchPlanSystemPrompt := None;
     cfg_generateQueriesSystemPrompt := None;
     cfg_responseSystemPrompt := None |}.

Definition blank_config : RunnableConfig :=
  {| configurable := Some blank_configurable |}.

Definition a_document : Document :=
  {| pageContent := "LangGraph builds stateful agents."; metadata := ∅ |}.

Definition one_doc_state : IndexState := {| docs := [a_document] |}.
Definition empty_state : IndexState := {| docs := [] |}.

(** Stand-ins for the three imports of [graph.ts], enough to run the node:
    a parser that knows one file content, a reducer that appends one document
    per record, and an index configuration with a fixed [docsFile]. *)
Definition parse_sample (text : string) : option JsVal :=
  if String.eqb text "[{}]" then Some (JArr [JObj ∅]) else None.

Definition reduce_sample (existing : list Document) (newDocs : JsVal)
  : list Document :=
  match newDocs with
  | JArr items =>
      existing ++ map (fun item =>
                         match item with
                         | JStr s => {| pageContent := s; metadata := ∅ |}
                         | JObj fields =>
                             {| pageContent := ""; metadata := fields |}
                         | _ => {| pageContent := ""; metadata := ∅ |}
                         end) items
  | JStr s => existing ++ [{| pageContent := s; metadata := ∅ |}]
  | _ => existing
  end.

Definition index_configuration_sample (config : RunnableConfig)
  : IndexConfiguration :=
  {| indexBase := ensureBaseConfiguration (Some config);
     docsFile := "sample_docs.json" |}.

(** The node on those stand-ins. *)
Definition index_sample : World -> IndexState -> option RunnableConfig
                          -> Eff IndexUpdate :=
  indexDocs parse_sample reduce_sample index_configuration_sample.

(** One run of the indexing graph on those stand-ins. *)
Definition run_sample : World -> option JsVal -> option RunnableConfig
                        -> Eff IndexState :=
  runIndexing parse_sample reduce_sample index_configuration_sample.

(** The default configuration with OpenAI embeddings. *)
Definition openai_config : RunnableConfig :=
  {| configurable :=
       Some {| cfg_embeddingModel := Some "openai/text-embedding-3-small";
               cfg_retrieverProvider := None;
               cfg_searchKwargs := None;
               cfg_queryModel := None;
               cfg_responseModel := None;
               cfg_routerSystemPrompt := None;
               cfg_moreInfoSystemPrompt := None;
               cfg_generalSystemPrompt := None;
               cfg_researchPlanSystemPrompt := None;
               cfg_generateQueriesSystemPrompt := None;
               cfg_responseSystemPrompt := None |} |}.


(** A batch of two raw records, as a caller submits it. *)
Definition raw_batch : JsVal := JArr [JStr "first"; JStr "second"].

(** The retriever the default configuration builds in [local_world]. *)
Definition local_retriever : VectorStoreRetriever :=
  asRetriever
    (ElasticVectorSearch (GeminiEmbeddings "gemini-embedding-001")
       "http://localhost:9200" (BasicAuth "elastic" "changeme")
       "langchain_index")
    ∅.

(** A machine with none of the vendors' API keys: the Cohere and Pinecone
    clients refuse to be built, and the Gemini class is not there to be
    built. *)
Definition keyless_world : World :=
  {| env := local_env;
     files := ∅;
     pinecone_refuses := fun _ _ => None;
     store_refuses := fun _ _ => None;
     library_refuses := fun call =>
       match call with
       | NewEmbeddings (CohereEmbeddings _) => Some "COHERE_API_KEY is not set"
       | NewEmbeddings (GeminiEmbeddings _) =>
           Some "GeminiEmbeddings is not a constructor"
       | NewPineconeClient => Some "PINECONE_API_KEY is not set"
       | _ => None
       end |}.

(** ** Further vocabulary *)

(** An environment variable that is set to a non-empty value. *)
Definition present (w : World) (name : string) : Prop :=
  exists value, env w !! name = Some value /\ value <> "".

(** The world with one environment variable removed. *)
Definition unset (name : string) (w : World) : World :=
  {| env := delete name (env w);
     files := files w;
     pinecone_refuses := pinecone_refuses w;
     store_refuses := store_refuses w;
     library_refuses := library_refuses w |}.

(** A constructed configuration written back as a [configurable] object. *)
Definition as_configurable (a : AgentConfiguration) : Configurable :=
  {| cfg_embeddingModel := Some (embeddingModel (baseConfig a));
     cfg_retrieverProvider := Some (retrieverProvider (baseConfig a));
     cfg_searchKwargs := Some (searchKwargs (baseConfig a));
     cfg_queryModel := Some (queryModel a);
     cfg_responseModel := Some (responseModel a);
     cfg_routerSystemPrompt := Some (routerSystemPrompt a);
     cfg_moreInfoSystemPrompt := Some (moreInfoSystemPrompt a);
     cfg_generalSystemPrompt := Some (generalSystemPrompt a);
     cfg_researchPlanSystemPrompt := Some (researchPlanSystemPrompt a);
     cfg_generateQueriesSystemPrompt := Some (generateQueriesSystemPrompt a);
     cfg_responseSystemPrompt := Some (responseSystemPrompt a) |}.

(** Traces in which awaited operations never overlap: each one settles
    right after it starts, and nothing follows a failure. *)
Inductive sequential : list Event -> Prop :=
| sequential_nil : sequential []
| sequential_fulfilled op rest :
    sequential rest -> sequential (Started op :: Fulfilled op :: rest)
| sequential_failed op : sequential [Started op; Failed op]
| sequential_reduce existing newDocs rest :
    sequential rest -> sequential (ReduceDocs existing newDocs :: rest).

(** The step of the indexing pipeline an event opens: read, reduce, connect,
    submit. *)
Definition step_of (e : Event) : option nat :=
  match e with
  | Started (ReadFile _ _) => Some 0%nat
  | ReduceDocs _ _ => Some 1%nat
  | Started (FromExistingIndex _ _) => Some 2%nat
  | Started (AddDocuments _ _) => Some 3%nat
  | _ => None
  end.

Definition steps (t : list Event) : list nat := omap step_of t.

(** A world in which Pinecone is reachable but the store rejects every
    batch. *)
Definition refusing_world : World :=
  {| env := {[ "PINECONE_INDEX_NAME" := "docs" ]};
     files := ∅;
     pinecone_refuses := fun _ _ => None;
     store_refuses := fun _ _ => Some "quota exceeded";
     library_refuses := fun _ => None |}.

Definition pinecone_config : RunnableConfig :=
  {| configurable :=
       Some {| cfg_embeddingModel := Some "openai/text-embedding-3-small";
               cfg_retrieverProvider := Some "pinecone";
               cfg_searchKwargs := None;
               cfg_queryModel := None;
               cfg_responseModel := None;
               cfg_routerSystemPrompt := None;
               cfg_moreInfoSystemPrompt := None;
               cfg_generalSystemPrompt := None;
               cfg_researchPlanSystemPrompt := None;
               cfg_generateQueriesSystemPrompt := None;
               cfg_responseSystemPrompt := None |} |}.

Definition pinecone_retriever : VectorStoreRetriever :=
  asRetriever
    (PineconeStore (OpenAIEmbeddings "text-embedding-3-small") "docs") ∅.

(** A world that knows only a MongoDB deployment. *)
Definition mongo_world : World :=
  {| env := {[ "MONGODB_URI" := "mongodb://localhost:27017" ]};
     files := ∅;
     pinecone_refuses := fun _ _ => None;
     store_refuses := fun _ _ => None;
     library_refuses := fun _ => None |}.

(** [local_world] with the URL set to the empty string. *)
Definition blank_url_world : World :=
  {| env := <["ELASTICSEARCH_URL" := ""]> local_env;
     files := files local_world;
     pinecone_refuses := pinecone_refuses local_world;
     store_refuses := store_refuses local_world;
     library_refuses := library_refuses local_world |}.

(** [local_world] with an API key added and every file removed. *)
Definition keyed_world : World :=
  {| env := <["ELASTICSEARCH_API_KEY" := "secret"]> local_env;
     files := ∅;
     pinecone_refuses := pinecone_refuses local_world;
     store_refuses := fun _ _ => Some "read only";
     library_refuses := fun _ => None |}.

(** A configuration that names an unknown embedding provider and an unknown
    retriever provider. *)
Definition voyage_config : RunnableConfig :=
  {| configurable :=
       Some {| cfg_embeddingModel := Some "voyage/voyage-3";
               cfg_retrieverProvider := Some "chroma";
               cfg_searchKwargs := None;
               cfg_queryModel := None;
               cfg_responseModel := None;
               cfg_routerSystemPrompt := None;
               cfg_moreInfoSystemPrompt := None;
               cfg_generalSystemPrompt := None;
               cfg_researchPlanSystemPrompt := None;
               cfg_generateQueriesSystemPrompt := None;
               cfg_responseSystemPrompt := None |} |}.

(** The batch an indexing run settles on: the one in the state, or, when
    that is empty, the reduced content of the fallback file. *)
Definition batch_to_index
    (JSON_parse : string -> option JsVal)
    (reduceDocs : list Document -> JsVal -> list Document)
    (ensureIndexConfiguration : RunnableConfig -> IndexConfiguration)
    (w : World) (state : IndexState) (config : RunnableConfig)
    (batch : list Document) : Prop :=
  (docs state <> [] /\ batch = docs state)
  \/ (docs state = []
      /\ exists content raw,
          files w !! docsFile (ensureIndexConfiguration config) = Some content
          /\ JSON_parse content = Some raw
          /\ batch = reduceDocs [] raw).

(** The four steps in the order the node takes them. *)
Definition pipeline : list nat := [0; 1; 2; 3]%nat.

(** [bare_world] with no file and a store that refuses nothing. *)
Definition fileless_world : World :=
  {| env := ∅;
     files := ∅;
     pinecone_refuses := fun _ _ => None;
     store_refuses := fun _ _ => None;
     library_refuses := fun _ => None |}.

(** The embeddings a vector store was built with. *)
Definition embeddings_of (store : VectorStore) : Embeddings :=
  match store with
  | ElasticVectorSearch embeddings _ _ _ => embeddings
  | PineconeStore embeddings _ => embeddings
  | MongoDBAtlasVectorSearch embeddings _ _ _ _ _ _ => embeddings
  end.

(** The configurable of [pinecone_config] with a chat model and a prompt
    set as well. *)
Definition tuned_configurable : Configurable :=
  {| cfg_embeddingModel := Some "openai/text-embedding-3-small";
     cfg_retrieverProvider := Some "pinecone";
     cfg_searchKwargs := None;
     cfg_queryModel := Some "openai/gpt-4o";
     cfg_responseModel := None;
     cfg_routerSystemPrompt := Some "Route the question.";
     cfg_moreInfoSystemPrompt := None;
     cfg_generalSystemPrompt := None;
     cfg_researchPlanSystemPrompt := None;
     cfg_generateQueriesSystemPrompt := None;
     cfg_responseSystemPrompt := None |}.

(** The reason of the first call of a sequence that the library refuses. *)
Fixpoint first_refusal (w : World) (calls : list Construction)
  : option string :=
  match calls with
  | [] => None
  | call :: rest =>
      match library_refuses w call with
      | Some reason => Some reason
      | None => first_refusal w rest
      end
  end.

(** The outcome of building [value] through a sequence of library calls:
    the error of the first call that throws, or the value. *)
Definition built_through {A} (w : World) (calls : list Construction)
    (value : A) : Exn + A :=
  match first_refusal w calls with
  | Some reason => inl (Rejected "library" reason)
  | None => inr value
  end.

(** The store [makeElasticRetriever] builds and the library calls it makes,
    in order. *)
Definition elastic_store (embeddings : Embeddings) (node : string)
    (auth : ElasticAuth) : VectorStore :=
  ElasticVectorSearch embeddings node auth "langchain_index".

Definition elastic_calls (embeddings : Embeddings) (node : string)
    (auth : ElasticAuth) (kwargs : gmap string JsVal) : list Construction :=
  [NewClient node auth;
   NewVectorStore (elastic_store embeddings node auth);
   AsRetriever (elastic_store embeddings node auth) kwargs].

(** The store [makeMongoDBRetriever] builds and the library calls it makes,
    in order. *)
Definition mongodb_store (embeddings : Embeddings) (uri : string)
  : VectorStore :=
  MongoDBAtlasVectorSearch embeddings uri "langgraph_retrieval_agent"
                           "default" "text" "embedding" "vector_index".

Definition mongodb_calls (embeddings : Embeddings) (uri : string)
    (kwargs : gmap string JsVal) : list Construction :=
  [NewMongoClient uri;
   MongoCollection uri "langgraph_retrieval_agent" "default";
   NewVectorStore (mongodb_store embeddings uri);
   AsRetriever (mongodb_store embeddings uri) kwargs].

(** The library calls [makePineconeRetriever] makes before the index
    lookup. *)
Definition pinecone_calls (index : string) : list Construction :=
  [NewPineconeClient; PineconeIndex index].

(** A machine whose endpoints are set but malformed: the Elasticsearch and
    MongoDB clients refuse an address without its scheme. *)
Definition malformed_world : World :=
  {| env := {[ "ELASTICSEARCH_URL" := "localhost:9200";
               "ELASTICSEARCH_USER" := "elastic";
               "ELASTICSEARCH_PASSWORD" := "changeme";
               "MONGODB_URI" := "localhost:27017";
               "PINECONE_INDEX_NAME" := "docs" ]};
     files := ∅;
     pinecone_refuses := fun _ _ => None;
     store_refuses := fun _ _ => None;
     library_refuses := fun call =>
       match call with
       | NewClient node _ =>
           if String.prefix "http" node then None else Some "Invalid URL"
       | NewMongoClient uri =>
           if String.prefix "mongodb" uri then None
           else Some "MongoParseError: Invalid scheme"
       | NewPineconeClient => Some "PINECONE_API_KEY is not set"
       | _ => None
       end |}.

(** * Properties *)

(** ** Strings *)

Lemma prefix_empty (s : string) : String.prefix "" s = true.
Proof. destruct s; reflexivity. Qed.

Lemma prefix_char (c a : ascii) (rest : string) :
  String.prefix (String c "") (String a rest) = Ascii.eqb a c.
Proof.
  simpl. destruct (ascii_dec c a) as [->|Hne].
  - rewrite prefix_empty. symmetry. apply Ascii.eqb_refl.
  - symmetry. apply Ascii.eqb_neq. congruence.
Qed.

Lemma indexOf_from_cons (c a : ascii) (rest : string) (from : Z) :
  indexOf_from (String a rest) (String c "") from
  = if Ascii.eqb a c then from
    else indexOf_from rest (String c "") (from + 1).
Proof.
  change (indexOf_from (String a rest) (String c "") from)
    with (if String.prefix (String c "") (String a rest) then from
          else indexOf_from rest (String c "") (from + 1)).
  now rewrite prefix_char.
Qed.

Lemma indexOf_from_absent (c : ascii) (s : string) (from : Z) :
  occurs c s = false -> indexOf_from s (String c "") from = -1.
Proof.
  revert from. induction s as [|a rest IH]; intros from Hocc.
  - reflexivity.
  - simpl in Hocc. apply orb_false_elim in Hocc as [Ha Hrest].
    rewrite indexOf_from_cons, Ha. now apply IH.
Qed.

Lemma indexOf_from_first (c : ascii) (p m : string) (from : Z) :
  occurs c p = false ->
  indexOf_from (p +:+ String c m) (String c "") from
  = from + Z.of_nat (String.length p).
Proof.
  revert from. induction p as [|a rest IH]; intros from Hocc.
  - change ("" +:+ String c m) with (String c m).
    rewrite indexOf_from_cons, Ascii.eqb_refl. simpl. lia.
  - simpl in Hocc. apply orb_false_elim in Hocc as [Ha Hrest].
    change (String a rest +:+ String c m) with (String a (rest +:+ String c m)).
    rewrite indexOf_from_cons, Ha, IH by assumption.
    cbn [String.length]. lia.
Qed.

(** Every string either lacks [c] or splits at its first occurrence. *)
Lemma first_occurrence (c : ascii) (s : string) :
  occurs c s = false \/
  exists p m, s = p +:+ String c m /\ occurs c p = false.
Proof.
  induction s as [|a rest IH].
  - now left.
  - simpl. destruct (Ascii.eqb a c) eqn:Ha.
    + right. exists "", rest. apply Ascii.eqb_eq in Ha as ->. now split.
    + destruct IH as [Hno | (p & m & -> & Hp)].
      * now left.
      * right. exists (String a p), m. split; [reflexivity|].
        simpl. now rewrite Ha.
Qed.

Lemma substring_head (p rest : string) :
  String.substring 0 (String.length p) (p +:+ rest) = p.
Proof.
  induction p as [|a p IH]; simpl.
  - now destruct rest.
  - f_equal. exact IH.
Qed.

Lemma substring_all (s : string) :
  String.substring 0 (String.length s) s = s.
Proof. induction s as [|a s IH]; simpl; [reflexivity | now f_equal]. Qed.

Lemma substring_tail (p rest : string) (n : nat) :
  String.substring (String.length p) n (p +:+ rest) = String.substring 0 n rest.
Proof. induction p as [|a p IH]; simpl; [reflexivity | exact IH]. Qed.

Lemma length_app (p rest : string) :
  String.length (p +:+ rest) = (String.length p + String.length rest)%nat.
Proof. induction p as [|a p IH]; simpl; [reflexivity | now f_equal]. Qed.

Lemma append_assoc (p q r : string) : (p +:+ q) +:+ r = p +:+ (q +:+ r).
Proof.
  induction p as [|a p IH]; [reflexivity|].
  change (String a ((p +:+ q) +:+ r) = String a (p +:+ (q +:+ r))).
  now rewrite IH.
Qed.

(** [slice(0, index)] and [slice(index + 1)] around a separator at [index]. *)
Lemma slice_before (c : ascii) (p m : string) :
  slice (p +:+ String c m) 0 (Some (Z.of_nat (String.length p))) = p.
Proof.
  unfold slice, slice_bound. rewrite length_app. cbn [String.length].
  replace (0 <? 0) with false by reflexivity.
  destruct (Z.ltb_spec (Z.of_nat (String.length p)) 0); [lia|].
  rewrite Z.min_l by lia.
  rewrite Z.min_l by lia.
  rewrite Z.sub_0_r, Nat2Z.id. apply substring_head.
Qed.

Lemma slice_after (c : ascii) (p m : string) :
  slice (p +:+ String c m) (Z.of_nat (String.length p) + 1) None = m.
Proof.
  unfold slice, slice_bound. rewrite length_app. cbn [String.length].
  destruct (Z.ltb_spec (Z.of_nat (String.length p) + 1) 0); [lia|].
  rewrite Z.min_l by lia.
  replace (Z.to_nat (Z.of_nat (String.length p) + 1))
    with (String.length (p +:+ String c ""))
    by (rewrite length_app; cbn [String.length]; lia).
  replace (Z.to_nat _) with (String.length m) by lia.
  change (String c m) with (String c "" +:+ m).
  rewrite <- append_assoc, substring_tail. apply substring_all.
Qed.

(** ** Library calls *)

Lemma construct_sync_returns {A} (w : World) (call : Construction)
    (built x : A) :
  construct_sync w call built = inr x <->
  x = built /\ library_refuses w call = None.
Proof.
  unfold construct_sync. destruct (library_refuses w call).
  - split; [discriminate | intros [_ H]; discriminate H].
  - split; [intros [= <-]; now split | intros [-> _]; reflexivity].
Qed.

Lemma construct_sync_throws {A} (w : World) (call : Construction)
    (built : A) (e : Exn) :
  construct_sync w call built = inl e <->
  exists reason,
    library_refuses w call = Some reason /\ e = Rejected "library" reason.
Proof.
  unfold construct_sync. destruct (library_refuses w call) as [reason|].
  - split; [intros [= <-]; eauto | intros (r & [= <-] & ->); reflexivity].
  - split; [discriminate | intros (r & H & _); discriminate H].
Qed.

Lemma construct_sync_cooperates {A} (w : World) (call : Construction)
    (built : A) :
  libraries_cooperate w -> construct_sync w call built = inr built.
Proof. intros Hlib. unfold construct_sync. now rewrite Hlib. Qed.

(** ** Embedding providers *)

Lemma makeTextEmbeddings_no_slash (w : World) (modelName : string) :
  occurs "/" modelName = false ->
  makeTextEmbeddings w modelName
  = construct_sync w (NewEmbeddings (GeminiEmbeddings modelName))
                   (GeminiEmbeddings modelName).
Proof.
  intros Hno. unfold makeTextEmbeddings, indexOf.
  now rewrite indexOf_from_absent.
Qed.

Lemma makeTextEmbeddings_slash (w : World) (provider model : string) :
  occurs "/" provider = false ->
  makeTextEmbeddings w (provider +:+ "/" +:+ model)
  = embeddings_case w provider model.
Proof.
  intros Hno. unfold makeTextEmbeddings, indexOf.
  change ("/" +:+ model) with (String "/" model).
  rewrite indexOf_from_first by assumption.
  rewrite Z.add_0_l.
  destruct (Z.eqb_spec (Z.of_nat (String.length provider)) (-1)); [lia|].
  now rewrite slice_before, slice_after.
Qed.

(** On a supported provider the outcome is the constructor's. *)
Lemma embeddings_case_supported (w : World) (provider model : string) :
  supported_provider provider ->
  exists e,
    (e = GeminiEmbeddings model \/ e = OpenAIEmbeddings model
     \/ e = CohereEmbeddings model)
    /\ embeddings_case w provider model
       = construct_sync w (NewEmbeddings e) e.
Proof.
  unfold embeddings_case. intros [-> | [-> | ->]]; eauto 6.
Qed.

Lemma embeddings_case_unsupported (w : World) (provider model : string) :
  ~ supported_provider provider ->
  embeddings_case w provider model = inl (unsupported_provider provider).
Proof.
  unfold embeddings_case, supported_provider. intros Hns.
  destruct (String.eqb_spec provider "gemini"); [tauto|].
  destruct (String.eqb_spec provider "openai"); [tauto|].
  destruct (String.eqb_spec provider "cohere"); [tauto|].
  reflexivity.
Qed.

(** The code's own error is thrown on unsupported providers only. *)
Lemma embeddings_case_own_error (w : World) (provider model : string) :
  (exists p, embeddings_case w provider model = inl (unsupported_provider p))
  <-> ~ supported_provider provider.
Proof.
  split.
  - intros [p Hp] Hs.
    destruct (embeddings_case_supported w provider model Hs) as (e & _ & He).
    rewrite He in Hp. apply construct_sync_throws in Hp as (r & _ & Hr).
    discriminate Hr.
  - intros Hns. exists provider. now apply embeddings_case_unsupported.
Qed.

(** C8, as amended. For every model name, [makeTextEmbeddings] splits it
    at the first ["/"] into provider and model, taking the provider to be
    ["gemini"] and the whole name as the model when there is no ["/"].  For
    gemini, openai and cohere it calls the embeddings constructor of the
    provider on the model: it returns the instance when the constructor
    returns and fails with the constructor's error when that throws.  Its own
    error, for an unsupported provider, is thrown exactly when the provider it
    parsed is none of the three; where no library call throws, that is the
    only error there is. *)
Theorem makeTextEmbeddings_splits_at_first_slash (w : World)
    (modelName : string) :
  (occurs "/" modelName = false \/
   exists provider model,
     modelName = provider +:+ "/" +:+ model /\ occurs "/" provider = false)
  /\ (occurs "/" modelName = false ->
      makeTextEmbeddings w modelName
      = construct_sync w (NewEmbeddings (GeminiEmbeddings modelName))
                       (GeminiEmbeddings modelName))
  /\ (forall provider model,
        modelName = provider +:+ "/" +:+ model ->
        occurs "/" provider = false ->
        (provider = "gemini" ->
         makeTextEmbeddings w modelName
         = construct_sync w (NewEmbeddings (GeminiEmbeddings model))
                          (GeminiEmbeddings model))
        /\ (provider = "openai" ->
            makeTextEmbeddings w modelName
            = construct_sync w (NewEmbeddings (OpenAIEmbeddings model))
                             (OpenAIEmbeddings model))
        /\ (provider = "cohere" ->
            makeTextEmbeddings w modelName
            = construct_sync w (NewEmbeddings (CohereEmbeddings model))
                             (CohereEmbeddings model))
        /\ (~ supported_provider provider ->
            makeTextEmbeddings w modelName
            = inl (Error ("Unsupported embedding provider: " +:+ provider))))
  /\ (forall e,
        makeTextEmbeddings w modelName = inr e ->
        library_refuses w (NewEmbeddings e) = None)
  /\ ((exists p, makeTextEmbeddings w modelName = inl (unsupported_provider p))
      <-> exists provider model,
            modelName = provider +:+ "/" +:+ model
            /\ occurs "/" provider = false
            /\ ~ supported_provider provider)
  /\ (libraries_cooperate w ->
      (exists e, makeTextEmbeddings w modelName = inl e)
      <-> exists provider model,
            modelName = provider +:+ "/" +:+ model
            /\ occurs "/" provider = false
            /\ ~ supported_provider provider).
Proof.
  split; [exact (first_occurrence "/" modelName)|].
  split; [exact (makeTextEmbeddings_no_slash w modelName)|].
  assert (Hown : (exists p, makeTextEmbeddings w modelName
                            = inl (unsupported_provider p))
                 <-> exists provider model,
                       modelName = provider +:+ "/" +:+ model
                       /\ occurs "/" provider = false
                       /\ ~ supported_provider provider).
  { split.
    - intros [p Hp].
      destruct (first_occurrence "/" modelName)
        as [Hno | (provider & model & -> & Hno)].
      + rewrite makeTextEmbeddings_no_slash in Hp by assumption.
        apply construct_sync_throws in Hp as (r & _ & Hr). discriminate Hr.
      + exists provider, model. split; [reflexivity|]. split; [assumption|].
        apply (embeddings_case_own_error w provider model).
        exists p. now rewrite <- makeTextEmbeddings_slash.
    - intros (provider & model & -> & Hno & Hns). exists provider.
      rewrite makeTextEmbeddings_slash by assumption.
      now apply embeddings_case_unsupported. }
  split; [|split; [|split; [exact Hown|]]].
  - intros provider model -> Hno.
    rewrite makeTextEmbeddings_slash by assumption.
    split; [now intros ->|]. split; [now intros ->|].
    split; [now intros ->|]. apply embeddings_case_unsupported.
  - intros e He.
    destruct (first_occurrence "/" modelName)
      as [Hno | (provider & model & -> & Hno)].
    + rewrite makeTextEmbeddings_no_slash in He by assumption.
      now apply construct_sync_returns in He as [-> Hlib].
    + change (provider +:+ String "/" model)
        with (provider +:+ "/" +:+ model) in He.
      rewrite makeTextEmbeddings_slash in He by assumption.
      unfold embeddings_case in He.
      repeat match type of He with
             | context [String.eqb ?a ?b] => destruct (String.eqb a b)
             end;
        try discriminate He;
        now apply construct_sync_returns in He as [-> Hlib].
  - intros Hlib. rewrite <- Hown. split.
    + intros [e He].
      destruct (first_occurrence "/" modelName)
        as [Hno | (provider & model & -> & Hno)].
      * rewrite makeTextEmbeddings_no_slash in He by assumption.
        rewrite construct_sync_cooperates in He by assumption.
        discriminate He.
      * change (provider +:+ String "/" model)
          with (provider +:+ "/" +:+ model) in He |- *.
        rewrite makeTextEmbeddings_slash in He |- * by assumption.
        apply embeddings_case_own_error. intros Hs.
        destruct (embeddings_case_supported w provider model Hs)
          as (built & _ & Hbuilt).
        rewrite Hbuilt, construct_sync_cooperates in He by assumption.
        discriminate He.
    + intros [p Hp]. eauto.
Qed.

Lemma makeTextEmbeddings_splits_at_first_slash_witness :
  occurs "/" "cohere" = false
  /\ makeTextEmbeddings local_world "cohere/embed/v3"
     = inr (CohereEmbeddings "embed/v3")
  /\ makeTextEmbeddings keyless_world "voyage/voyage-3"
     = inl (Error "Unsupported embedding provider: voyage")
  /\ makeTextEmbeddings keyless_world "embed-v3"
     = inl (Rejected "library" "GeminiEmbeddings is not a constructor").
Proof.
  split; [reflexivity|]. split; [|split].
  - destruct (makeTextEmbeddings_splits_at_first_slash
                local_world "cohere/embed/v3") as (_ & _ & Hsplit & _).
    destruct (Hsplit "cohere" "embed/v3" eq_refl eq_refl) as (_ & _ & Hc & _).
    exact (Hc eq_refl).
  - destruct (makeTextEmbeddings_splits_at_first_slash
                keyless_world "voyage/voyage-3") as (_ & _ & Hsplit & _).
    destruct (Hsplit "voyage" "voyage-3" eq_refl eq_refl) as (_ & _ & _ & He).
    apply He. intros [H|[H|H]]; discriminate H.
  - destruct (makeTextEmbeddings_splits_at_first_slash
                keyless_world "embed-v3") as (_ & Hbare & _).
    exact (Hbare eq_refl).
Defined.

(** C8, as stated, fails: a supported provider does not guarantee an
    embeddings instance, and an error is not always an unsupported provider.
    Where the Cohere constructor throws for want of its API key,
    ["cohere/embed-english-v3.0"] names a supported provider and
    [makeTextEmbeddings] throws. *)
Lemma supported_provider_can_throw :
  supported_provider "cohere"
  /\ occurs "/" "cohere" = false
  /\ makeTextEmbeddings keyless_world "cohere/embed-english-v3.0"
     = inl (Rejected "library" "COHERE_API_KEY is not set")
  /\ (forall embeddings,
        makeTextEmbeddings keyless_world "cohere/embed-english-v3.0"
        <> inr embeddings)
  /\ makeTextEmbeddings keyless_world "cohere/embed-english-v3.0"
     <> inl (unsupported_provider "cohere").
Proof.
  split; [right; right; reflexivity|]. split; [reflexivity|].
  split; [reflexivity|]. split; [intros embeddings|]; discriminate.
Qed.

(** ** Embedding providers on sample names *)

Example makeTextEmbeddings_default :
  makeTextEmbeddings local_world "gemini/gemini-embedding-001"
  = inr (GeminiEmbeddings "gemini-embedding-001").
Proof. reflexivity. Qed.

Example makeTextEmbeddings_bare :
  makeTextEmbeddings local_world "text-embedding-3-small"
  = inr (GeminiEmbeddings "text-embedding-3-small").
Proof. reflexivity. Qed.

Example makeTextEmbeddings_two_slashes :
  makeTextEmbeddings local_world "openai/org/model"
  = inr (OpenAIEmbeddings "org/model").
Proof. reflexivity. Qed.

Example makeTextEmbeddings_keyless :
  makeTextEmbeddings keyless_world "gemini/gemini-embedding-001"
  = inl (Rejected "library" "GeminiEmbeddings is not a constructor").
Proof. reflexivity. Qed.

Example makeTextEmbeddings_unknown :
  makeTextEmbeddings local_world "voyage/voyage-3"
  = inl (Error "Unsupported embedding provider: voyage").
Proof. reflexivity. Qed.

Example split_namespace :
  split "." "langgraph_retrieval_agent.default"
  = ["langgraph_retrieval_agent"; "default"].
Proof. reflexivity. Qed.

(** ** Configuration *)

Lemma js_or_unset {A} `{Truthy A} (d : A) : js_or None d = d.
Proof. reflexivity. Qed.

Lemma js_or_empty (d : string) : js_or (Some "") d = d.
Proof. reflexivity. Qed.

Lemma js_or_nonempty (s d : string) : s <> "" -> js_or (Some s) d = s.
Proof.
  intros Hs. unfold js_or, truthy, string_truthy.
  now destruct (String.eqb_spec s "").
Qed.

Lemma js_or_object {V} (kw d : gmap string V) : js_or (Some kw) d = kw.
Proof. reflexivity. Qed.

Lemma configurable_of_undefined : configurable_of None = empty_configurable.
Proof. reflexivity. Qed.

Lemma configurable_of_missing :
  configurable_of (Some {| configurable := None |}) = empty_configurable.
Proof. reflexivity. Qed.

Lemma configurable_of_present (c : Configurable) :
  configurable_of (Some {| configurable := Some c |}) = c.
Proof. reflexivity. Qed.


(** ** The trace monad *)

Lemma bind_throw {A B} (t : list Event) (e : Exn) (k : A -> Eff B) :
  bind (t, inl e) k = (t, inl e).
Proof. reflexivity. Qed.

Lemma bind_value {A B} (t : list Event) (a : A) (k : A -> Eff B) :
  bind (t, inr a) k = (t ++ trace (k a), outcome (k a)).
Proof. unfold bind, trace, outcome. now destruct (k a). Qed.

Lemma bind_ret {A B} (a : A) (k : A -> Eff B) : bind (ret a) k = k a.
Proof. unfold ret. rewrite bind_value. now destruct (k a). Qed.

(** A library call either throws or hands what it built to the rest. *)
Lemma bind_construct {A B} (w : World) (call : Construction) (built : A)
    (k : A -> Eff B) :
  bind (construct w call built) k
  = match library_refuses w call with
    | Some reason => ([], inl (Rejected "library" reason))
    | None => k built
    end.
Proof.
  unfold construct, construct_sync, lift, bind.
  destruct (library_refuses w call); [reflexivity|].
  now destruct (k built).
Qed.

(** Splits a run of library calls into the cases of their outcomes. *)
Ltac library_cases :=
  rewrite ?bind_construct, ?js_or_object;
  unfold construct, construct_sync, lift;
  repeat match goal with
         | |- context [library_refuses ?w ?c] =>
             destruct (library_refuses w c)
         end.

(** ** Retriever construction *)

(** The three constructors: when they fail on the environment they have
    done nothing, and what they build is a store of their own backend
    filtered by [searchKwargs]. *)
Lemma makeElasticRetriever_cases (w : World)
    (configuration : BaseConfiguration) (embeddings : Embeddings) :
  (exists message,
      makeElasticRetriever w configuration embeddings
      = ([], inl (Error message))
      /\ exists rest, message = String "E" rest)
  \/ (exists node auth indexName,
        makeElasticRetriever w configuration embeddings
        = ([], inr (asRetriever
                      (ElasticVectorSearch embeddings node auth indexName)
                      (searchKwargs configuration))))
  \/ (exists reason,
        makeElasticRetriever w configuration embeddings
        = ([], inl (Rejected "library" reason))).
Proof.
  unfold makeElasticRetriever.
  destruct (js_not (env w !! "ELASTICSEARCH_URL")); [left; eauto|].
  destruct (String.eqb _ "elastic-local").
  - destruct (js_not (env w !! "ELASTICSEARCH_USER")
              || js_not (env w !! "ELASTICSEARCH_PASSWORD"));
      [left; eauto | right].
    rewrite bind_ret. library_cases; eauto 6.
  - destruct (js_not (env w !! "ELASTICSEARCH_API_KEY"));
      [left; eauto | right].
    rewrite bind_ret. library_cases; eauto 6.
Qed.

Lemma makePineconeRetriever_cases (w : World)
    (configuration : BaseConfiguration) (embeddings : Embeddings) :
  makePineconeRetriever w configuration embeddings
  = ([], inl (Error "PINECONE_INDEX_NAME environment variable is not defined"))
  \/ (exists pineconeIndex reason,
        makePineconeRetriever w configuration embeddings
        = ([Started (FromExistingIndex embeddings pineconeIndex);
            Failed (FromExistingIndex embeddings pineconeIndex)],
           inl (Rejected "pinecone" reason)))
  \/ (exists pineconeIndex,
        makePineconeRetriever w configuration embeddings
        = ([Started (FromExistingIndex embeddings pineconeIndex);
            Fulfilled (FromExistingIndex embeddings pineconeIndex)],
           inr (asRetriever (PineconeStore embeddings pineconeIndex)
                            (searchKwargs configuration))))
  \/ (exists reason,
        makePineconeRetriever w configuration embeddings
        = ([], inl (Rejected "library" reason)))
  \/ (exists pineconeIndex reason,
        makePineconeRetriever w configuration embeddings
        = ([Started (FromExistingIndex embeddings pineconeIndex);
            Fulfilled (FromExistingIndex embeddings pineconeIndex)],
           inl (Rejected "library" reason))).
Proof.
  unfold makePineconeRetriever, fromExistingIndex.
  destruct (js_not (env w !! "PINECONE_INDEX_NAME")); [now left|].
  right. rewrite !bind_construct, js_or_object.
  destruct (library_refuses w NewPineconeClient); [eauto 6|].
  destruct (library_refuses w (PineconeIndex _)); [eauto 6|].
  destruct (pinecone_refuses w embeddings _); [left; eauto|].
  right. unfold await. rewrite bind_value.
  unfold construct, construct_sync, lift.
  destruct (library_refuses w (AsRetriever _ _));
    cbn [app]; [right; right; eauto | left; eauto].
Qed.

Lemma makeMongoDBRetriever_cases (w : World)
    (configuration : BaseConfiguration) (embeddings : Embeddings) :
  makeMongoDBRetriever w configuration embeddings
  = ([], inl (Error "MONGODB_URI environment variable is not defined"))
  \/ (exists uri db coll textKey embeddingKey indexName,
        makeMongoDBRetriever w configuration embeddings
        = ([], inr (asRetriever
                      (MongoDBAtlasVectorSearch embeddings uri db coll
                         textKey embeddingKey indexName)
                      (searchKwargs configuration))))
  \/ (exists reason,
        makeMongoDBRetriever w configuration embeddings
        = ([], inl (Rejected "library" reason))).
Proof.
  unfold makeMongoDBRetriever.
  destruct (js_not (env w !! "MONGODB_URI")); [now left|].
  right. cbv zeta. library_cases; eauto 6.
  left. do 6 eexists. reflexivity.
Qed.

(** [makeRetriever] once the embeddings are known. *)
Lemma makeRetriever_unfold (w : World) (config : RunnableConfig) :
  makeRetriever w config
  = let configuration := ensureBaseConfiguration (Some config) in
    match makeTextEmbeddings w (embeddingModel configuration) with
    | inl e => ([], inl e)
    | inr embeddings =>
        let provider := retrieverProvider configuration in
        if String.eqb provider "elastic" then
          makeElasticRetriever w configuration embeddings
        else if String.eqb provider "elastic-local" then
          makeElasticRetriever w configuration embeddings
        else if String.eqb provider "pinecone" then
          makePineconeRetriever w configuration embeddings
        else if String.eqb provider "mongodb" then
          makeMongoDBRetriever w configuration embeddings
        else
          ([], inl (Error ("Unrecognized retrieverProvider in configuration: "
                           +:+ provider)))
    end.
Proof.
  unfold makeRetriever, lift. cbv zeta.
  destruct (makeTextEmbeddings _ _) as [e|embeddings]; [reflexivity|].
  change (@pair (list Event) (Exn + Embeddings) [] (inr embeddings))
    with (ret embeddings).
  now rewrite bind_ret.
Qed.

(** An error of [makeTextEmbeddings] is its own, for an unsupported
    provider, or the one an embeddings constructor threw. *)
Lemma makeTextEmbeddings_message (w : World) (modelName : string) (e : Exn) :
  makeTextEmbeddings w modelName = inl e ->
  (exists rest, e = Error (String "U" (String "n" (String "s" rest))))
  \/ (exists reason, e = Rejected "library" reason).
Proof.
  unfold makeTextEmbeddings.
  destruct (indexOf modelName "/" =? -1);
    repeat match goal with
           | |- context [String.eqb ?a ?b] => destruct (String.eqb a b)
           end;
    intros H;
    try (apply construct_sync_throws in H as (reason & _ & ->); eauto);
    injection H as <-; eauto.
Qed.

(** A retriever constructor only ever talks to Pinecone: it reads no file
    and hands nothing to a store. *)
Lemma makeRetriever_events (w : World) (config : RunnableConfig) :
  Forall (fun e => pinecone_event e = true) (trace (makeRetriever w config)).
Proof.
  rewrite makeRetriever_unfold. cbv zeta.
  destruct (makeTextEmbeddings _ _) as [e|embeddings]; [constructor|].
  set (configuration := ensureBaseConfiguration (Some config)).
  pose proof (makeElasticRetriever_cases w configuration embeddings) as He.
  pose proof (makePineconeRetriever_cases w configuration embeddings) as Hp.
  pose proof (makeMongoDBRetriever_cases w configuration embeddings) as Hm.
  repeat match goal with
         | |- context [String.eqb ?a ?b] => destruct (String.eqb a b)
         end.
  - destruct He as [(m & -> & _) | [(n & a & i & ->) | (r & ->)]];
      constructor.
  - destruct He as [(m & -> & _) | [(n & a & i & ->) | (r & ->)]];
      constructor.
  - destruct Hp as [-> | [(i & r & ->) | [(i & ->) | [(r & ->) | (i & r & ->)]]]];
      repeat constructor.
  - destruct Hm as [-> | [(u & d & c & t & k & i & ->) | (r & ->)]];
      constructor.
  - constructor.
Qed.

(** What [makeRetriever] returns filters by the constructed [searchKwargs]
    and is of the backend its provider stands for. *)
Lemma makeRetriever_success (w : World) (config : RunnableConfig)
    (t : list Event) (retriever : VectorStoreRetriever) :
  makeRetriever w config = (t, inr retriever) ->
  filter retriever = searchKwargs (ensureBaseConfiguration (Some config))
  /\ selected_backend (retrieverProvider (ensureBaseConfiguration (Some config)))
     = Some (backend_of (vectorStore retriever)).
Proof.
  rewrite makeRetriever_unfold. cbv zeta. unfold selected_backend.
  destruct (makeTextEmbeddings _ _) as [e|embeddings]; [discriminate|].
  set (configuration := ensureBaseConfiguration (Some config)).
  pose proof (makeElasticRetriever_cases w configuration embeddings) as He.
  pose proof (makePineconeRetriever_cases w configuration embeddings) as Hp.
  pose proof (makeMongoDBRetriever_cases w configuration embeddings) as Hm.
  repeat match goal with
         | |- context [String.eqb ?a ?b] => destruct (String.eqb a b)
         end.
  - destruct He as [(m & -> & _) | [(n & a & i & ->) | (r & ->)]]; intros H;
      [discriminate | now injection H as <- <- | discriminate].
  - destruct He as [(m & -> & _) | [(n & a & i & ->) | (r & ->)]]; intros H;
      [discriminate | now injection H as <- <- | discriminate].
  - destruct Hp as [-> | [(i & r & ->) | [(i & ->) | [(r & ->) | (i & r & ->)]]]];
      intros H; try discriminate H. now injection H as <- <-.
  - destruct Hm as [-> | [(u & d & c & x & k & i & ->) | (r & ->)]]; intros H;
      [discriminate | now injection H as <- <- | discriminate].
  - discriminate.
Qed.

Lemma enumerated_selected (provider : string) :
  enumerated_provider provider <-> selected_backend provider <> None.
Proof.
  unfold enumerated_provider, selected_backend.
  destruct (String.eqb_spec provider "elastic"); [intuition congruence|].
  destruct (String.eqb_spec provider "elastic-local"); [intuition congruence|].
  destruct (String.eqb_spec provider "pinecone"); [intuition congruence|].
  destruct (String.eqb_spec provider "mongodb"); intuition congruence.
Qed.

Lemma makeRetriever_unrecognized (w : World) (config : RunnableConfig) :
  let configuration := ensureBaseConfiguration (Some config) in
  selected_backend (retrieverProvider configuration) = None ->
  makeRetriever w config
  = ([], match makeTextEmbeddings w (embeddingModel configuration) with
         | inl e => inl e
         | inr _ => inl (unrecognized_provider (retrieverProvider configuration))
         end).
Proof.
  cbv zeta. rewrite makeRetriever_unfold. cbv zeta. unfold selected_backend.
  destruct (makeTextEmbeddings _ _) as [e|embeddings]; [reflexivity|].
  repeat match goal with
         | |- context [String.eqb ?a ?b] => destruct (String.eqb a b)
         end; try discriminate.
  reflexivity.
Qed.

Lemma makeRetriever_recognized (w : World) (config : RunnableConfig) :
  let provider := retrieverProvider (ensureBaseConfiguration (Some config)) in
  selected_backend provider <> None ->
  outcome (makeRetriever w config) <> inl (unrecognized_provider provider).
Proof.
  cbv zeta. rewrite makeRetriever_unfold. cbv zeta.
  unfold selected_backend, unrecognized_provider.
  destruct (makeTextEmbeddings _ _) as [e|embeddings] eqn:Hemb.
  { intros _.
    apply makeTextEmbeddings_message in Hemb as [[rest ->] | [reason ->]];
      simpl; discriminate. }
  set (configuration := ensureBaseConfiguration (Some config)).
  pose proof (makeElasticRetriever_cases w configuration embeddings) as He.
  pose proof (makePineconeRetriever_cases w configuration embeddings) as Hp.
  pose proof (makeMongoDBRetriever_cases w configuration embeddings) as Hm.
  repeat match goal with
         | |- context [String.eqb ?a ?b] => destruct (String.eqb a b)
         end; intros Hsel.
  - destruct He as [(m & -> & rest & ->) | [(n & a & i & ->) | (r & ->)]];
      simpl; discriminate.
  - destruct He as [(m & -> & rest & ->) | [(n & a & i & ->) | (r & ->)]];
      simpl; discriminate.
  - destruct Hp as [-> | [(i & r & ->) | [(i & ->) | [(r & ->) | (i & r & ->)]]]];
      simpl; discriminate.
  - destruct Hm as [-> | [(u & d & c & x & k & i & ->) | (r & ->)]];
      simpl; discriminate.
  - now contradiction Hsel.
Qed.

(** C4. For every configuration, [makeRetriever] selects the one backend
    its [retrieverProvider] stands for, with one variant for each of elastic,
    pinecone and mongodb; it raises an error for every provider outside the
    enumerated values; and for a provider among them the unrecognized-provider
    branch is never taken. *)
Theorem makeRetriever_selects_backend (w : World) (config : RunnableConfig) :
  let configuration := ensureBaseConfiguration (Some config) in
  let provider := retrieverProvider configuration in
  (forall embeddings,
      makeTextEmbeddings w (embeddingModel configuration) = inr embeddings ->
      makeRetriever w config
      = match selected_backend provider with
        | Some Elastic => makeElasticRetriever w configuration embeddings
        | Some Pinecone => makePineconeRetriever w configuration embeddings
        | Some MongoDB => makeMongoDBRetriever w configuration embeddings
        | None => throw (unrecognized_provider provider)
        end)
  /\ (forall t retriever,
        makeRetriever w config = (t, inr retriever) ->
        enumerated_provider provider
        /\ selected_backend provider
           = Some (backend_of (vectorStore retriever)))
  /\ (~ enumerated_provider provider ->
      (exists e, makeRetriever w config = ([], inl e))
      /\ (forall embeddings,
            makeTextEmbeddings w (embeddingModel configuration) = inr embeddings ->
            makeRetriever w config = ([], inl (unrecognized_provider provider))))
  /\ (enumerated_provider provider ->
      outcome (makeRetriever w config) <> inl (unrecognized_provider provider))
  /\ (forall c p,
        configurable config = Some c -> cfg_retrieverProvider c = Some p ->
        p <> "" -> provider = p).
Proof.
  cbv zeta.
  assert (Hnone : ~ enumerated_provider
                      (retrieverProvider
                         (ensureBaseConfiguration (Some config))) ->
                  selected_backend
                    (retrieverProvider (ensureBaseConfiguration (Some config)))
                  = None).
  { intros Hout. destruct (selected_backend _) eqn:Hsel; [|reflexivity].
    exfalso. apply Hout, enumerated_selected. congruence. }
  split; [|split; [|split; [|split]]].
  - intros embeddings Hemb. rewrite makeRetriever_unfold. cbv zeta.
    rewrite Hemb. unfold selected_backend, unrecognized_provider, throw.
    repeat match goal with
           | |- context [String.eqb ?a ?b] => destruct (String.eqb a b)
           end; reflexivity.
  - intros t retriever Hmk.
    apply makeRetriever_success in Hmk as [_ Hsel]. split; [|exact Hsel].
    apply enumerated_selected. rewrite Hsel. discriminate.
  - intros Hout. rewrite (makeRetriever_unrecognized w config (Hnone Hout)).
    split.
    + destruct (makeTextEmbeddings _ _); eauto.
    + intros embeddings Hemb. now rewrite Hemb.
  - intros Henum. apply makeRetriever_recognized.
    now apply enumerated_selected.
  - intros c p Hc Hp Hne. destruct config as [oc]. simpl in Hc. subst oc.
    unfold ensureBaseConfiguration. rewrite configurable_of_present.
    cbn [retrieverProvider]. rewrite Hp. now apply js_or_nonempty.
Qed.

Section ConfigurationFacts.

Variables ROUTER_SYSTEM_PROMPT MORE_INFO_SYSTEM_PROMPT
          GENERAL_SYSTEM_PROMPT RESEARCH_PLAN_SYSTEM_PROMPT
          GENERATE_QUERIES_SYSTEM_PROMPT RESPONSE_SYSTEM_PROMPT : string.

Abbreviation ensureAgent :=
  (ensureAgentConfiguration
     ROUTER_SYSTEM_PROMPT MORE_INFO_SYSTEM_PROMPT GENERAL_SYSTEM_PROMPT
     RESEARCH_PLAN_SYSTEM_PROMPT GENERATE_QUERIES_SYSTEM_PROMPT
     RESPONSE_SYSTEM_PROMPT).

Abbreviation default_of :=
  (documented_default
     ROUTER_SYSTEM_PROMPT MORE_INFO_SYSTEM_PROMPT GENERAL_SYSTEM_PROMPT
     RESEARCH_PLAN_SYSTEM_PROMPT GENERATE_QUERIES_SYSTEM_PROMPT
     RESPONSE_SYSTEM_PROMPT).

(** Every string option is built by one and the same expression. *)
Lemma configured_js_or (config : option RunnableConfig) (o : StringOption) :
  configured o (ensureAgent config)
  = js_or (supplied o (configurable_of config)) (default_of o).
Proof. destruct o; reflexivity. Qed.

Lemma base_configured_agrees (config : option RunnableConfig)
    (o : StringOption) (v : string) :
  base_configured o (ensureBaseConfiguration config) = Some v ->
  v = configured o (ensureAgent config).
Proof. destruct o; simpl; congruence. Qed.

(** C9. When a recognized string option is explicitly set to the empty
    string, both constructors put the documented default in its place: the
    supplied empty value is not kept, as [||] tests falsiness and not
    absence. *)
Theorem empty_string_option_is_defaulted
    (config : option RunnableConfig) (o : StringOption) :
  supplied o (configurable_of config) = Some "" ->
  configured o (ensureAgent config) = default_of o
  /\ (forall v,
        base_configured o (ensureBaseConfiguration config) = Some v ->
        v = default_of o)
  /\ (o = EmbeddingModel \/ o = RetrieverProvider
      \/ o = QueryModel \/ o = ResponseModel ->
      configured o (ensureAgent config) <> "").
Proof.
  intros Hset.
  assert (Hdef : configured o (ensureAgent config) = default_of o)
    by now rewrite configured_js_or, Hset.
  split; [exact Hdef|]. split.
  - intros v Hv. rewrite <- Hdef. now apply base_configured_agrees.
  - rewrite Hdef. intros [-> | [-> | [-> | ->] ] ]; discriminate.
Qed.

(** C5, as amended. For every configuration, present or not, both
    constructors return a fully populated record: an option that is unset
    or set to the empty string is filled with its documented default, an
    option set to a non-empty value is passed through, [searchKwargs] is the
    supplied object or the empty one, and the agent configuration carries
    the base configuration unchanged.  Defaulting is over once the record
    is built: the filter of every retriever made from it is the constructed
    [searchKwargs]. *)
Theorem configuration_defaults (config : option RunnableConfig) :
  let c := configurable_of config in
  (forall o, supplied o c = None \/ supplied o c = Some "" ->
             configured o (ensureAgent config) = default_of o)
  /\ (forall o s, supplied o c = Some s -> s <> "" ->
                  configured o (ensureAgent config) = s)
  /\ (cfg_searchKwargs c = None ->
      searchKwargs (ensureBaseConfiguration config) = ∅)
  /\ (forall kw, cfg_searchKwargs c = Some kw ->
                 searchKwargs (ensureBaseConfiguration config) = kw)
  /\ baseConfig (ensureAgent config) = ensureBaseConfiguration config
  /\ (forall w cfg t retriever,
        config = Some cfg ->
        makeRetriever w cfg = (t, inr retriever) ->
        filter retriever = searchKwargs (ensureBaseConfiguration config)).
Proof.
  intros c. repeat split.
  - intros o [Hu|He]; rewrite configured_js_or; fold c.
    + now rewrite Hu.
    + now rewrite He.
  - intros o s Hs Hne. rewrite configured_js_or. fold c. rewrite Hs.
    now apply js_or_nonempty.
  - intros Hu. unfold ensureBaseConfiguration. fold c. cbn [searchKwargs].
    now rewrite Hu.
  - intros kw Hs. unfold ensureBaseConfiguration. fold c. cbn [searchKwargs].
    now rewrite Hs.
  - intros w cfg t retriever -> Hmk.
    now apply makeRetriever_success in Hmk as [Hfilter _].
Qed.

End ConfigurationFacts.

Lemma empty_string_option_is_defaulted_witness :
  supplied EmbeddingModel (configurable_of (Some blank_config)) = Some ""
  /\ embeddingModel (ensureBaseConfiguration (Some blank_config))
     = "gemini/gemini-embedding-001"
  /\ routerSystemPrompt
       (ensureAgentConfiguration "route" "ask" "chat" "plan" "search" "answer"
          (Some blank_config))
     = "route".
Proof.
  split; [reflexivity|]. split.
  - destruct (empty_string_option_is_defaulted
                "route" "ask" "chat" "plan" "search" "answer"
                (Some blank_config) EmbeddingModel eq_refl) as (_ & Hbase & _).
    exact (Hbase _ eq_refl).
  - destruct (empty_string_option_is_defaulted
                "route" "ask" "chat" "plan" "search" "answer"
                (Some blank_config) RouterSystemPrompt eq_refl) as (Hagent & _).
    exact Hagent.
Defined.

Lemma configuration_defaults_witness :
  retrieverProvider (ensureBaseConfiguration (Some blank_config)) = "pinecone"
  /\ queryModel
       (ensureAgentConfiguration "route" "ask" "chat" "plan" "search" "answer"
          (Some blank_config))
     = "gemini/gemini-2.5-flash"
  /\ searchKwargs (ensureBaseConfiguration None) = ∅.
Proof.
  destruct (configuration_defaults
              "route" "ask" "chat" "plan" "search" "answer"
              (Some blank_config)) as (Hunset & Hset & _).
  destruct (configuration_defaults
              "route" "ask" "chat" "plan" "search" "answer" None)
    as (_ & _ & Hkw & _).
  split; [|split].
  - apply (Hset RetrieverProvider "pinecone"); [reflexivity | discriminate].
  - apply (Hunset QueryModel). left. reflexivity.
  - apply Hkw. reflexivity.
Defined.

(** C5, as stated, fails: an option that is set is not always passed
    through.  Here [embeddingModel] is set to the empty string and the
    constructed configuration holds the default instead. *)
Lemma set_option_not_passed_through :
  cfg_embeddingModel (configurable_of (Some blank_config)) = Some ""
  /\ embeddingModel (ensureBaseConfiguration (Some blank_config)) <> "".
Proof. split; [reflexivity | discriminate]. Qed.

(** ** The indexing node *)

Lemma pinecone_event_silent (e : Event) :
  pinecone_event e = true ->
  read_of e = None /\ submission_of e = None /\ reduction_of e = None
  /\ (forall r batch, e <> Started (AddDocuments r batch)).
Proof.
  destruct e as [[]|[]|[]|]; simpl; intros He; try discriminate He;
    repeat split; intros; discriminate.
Qed.

Lemma omap_none {A} (f : Event -> option A) (t : list Event) :
  Forall (fun e => f e = None) t -> omap f t = [].
Proof.
  induction 1 as [|e t He _ IH]; [reflexivity|].
  cbn [omap list_omap]. now rewrite He.
Qed.

(** Events of a retriever constructor are invisible to the three
    projections of a trace. *)
Lemma pinecone_events_silent (t tail : list Event) :
  Forall (fun e => pinecone_event e = true) t ->
  reads (t ++ tail) = reads tail
  /\ submissions (t ++ tail) = submissions tail
  /\ reductions (t ++ tail) = reductions tail
  /\ (forall r batch,
        Started (AddDocuments r batch) ∈ t ++ tail ->
        Started (AddDocuments r batch) ∈ tail).
Proof.
  intros Hev. unfold reads, submissions, reductions.
  rewrite !omap_app.
  rewrite (omap_none read_of t), (omap_none submission_of t),
          (omap_none reduction_of t);
    try (eapply Forall_impl; [exact Hev|];
         intros e He; now apply pinecone_event_silent in He).
  repeat split. intros r batch Hin.
  apply elem_of_app in Hin as [Hin|Hin]; [exfalso | exact Hin].
  rewrite Forall_forall in Hev. apply Hev in Hin.
  discriminate Hin.
Qed.

Lemma submit_cases (w : World) (config : RunnableConfig)
    (batch : list Document) :
  exists tail,
    submit w config batch
    = (trace (makeRetriever w config) ++ tail,
       outcome (submit w config batch))
    /\ SubmitEnd w batch tail (outcome (makeRetriever w config))
                 (outcome (submit w config batch)).
Proof.
  unfold submit. destruct (makeRetriever w config) as [t [e|retriever]].
  - exists []. rewrite bind_throw, app_nil_r. split; [reflexivity|constructor].
  - rewrite bind_value. unfold addDocuments.
    destruct (store_refuses w retriever batch) as [reason|] eqn:Hstore;
      eexists; (split; [reflexivity|]); cbn [outcome snd];
      now constructor.
Qed.

Lemma SubmitEnd_trace (w : World) (batch : list Document)
    (tail : list Event) (made : Exn + VectorStoreRetriever)
    (result : Exn + IndexUpdate) :
  SubmitEnd w batch tail made result ->
  reads tail = [] /\ reductions tail = []
  /\ submissions tail = match made with inr _ => [batch] | inl _ => [] end
  /\ (forall r b, Started (AddDocuments r b) ∈ tail -> b = batch).
Proof.
  destruct 1; repeat split; intros r b Hin;
    repeat match goal with
           | H : _ ∈ _ :: _ |- _ =>
               apply elem_of_cons in H as [H|H]; [congruence|]
           | H : _ ∈ [] |- _ => now apply elem_of_nil in H
           end.
Qed.

(** What a trace of [submit] contains. *)
Lemma submit_trace (w : World) (config : RunnableConfig)
    (batch : list Document) :
  reads (trace (submit w config batch)) = []
  /\ reductions (trace (submit w config batch)) = []
  /\ submissions (trace (submit w config batch))
     = match outcome (makeRetriever w config) with
       | inr _ => [batch]
       | inl _ => []
       end
  /\ (forall r b, Started (AddDocuments r b) ∈ trace (submit w config batch) ->
                  b = batch).
Proof.
  destruct (submit_cases w config batch) as (tail & Heq & Hend).
  rewrite Heq. cbn [trace fst].
  destruct (pinecone_events_silent _ tail (makeRetriever_events w config))
    as (-> & -> & -> & Hin).
  destruct (SubmitEnd_trace _ _ _ _ _ Hend) as (Hr & Hd & Hs & Hb).
  repeat split; try assumption.
  intros r b Hrb. apply (Hb r), Hin, Hrb.
Qed.

Lemma submissions_elem (w : World) (config : RunnableConfig)
    (batch b : list Document) :
  b ∈ submissions (trace (submit w config batch)) -> b = batch.
Proof.
  destruct (submit_trace w config batch) as (_ & _ & -> & _).
  destruct (outcome _); intros Hin.
  - now apply elem_of_nil in Hin.
  - now apply list_elem_of_singleton in Hin.
Qed.

(** A retriever constructor whose credential is absent throws at once. *)
Lemma missing_credential_retriever (w : World) (config : RunnableConfig)
    (name : string) :
  name ∈ required_credentials
           (retrieverProvider (ensureBaseConfiguration (Some config))) ->
  env w !! name = None ->
  exists e, makeRetriever w config = ([], inl e).
Proof.
  rewrite makeRetriever_unfold. cbv zeta.
  destruct (makeTextEmbeddings _) as [e|embeddings]; [eauto|].
  set (configuration := ensureBaseConfiguration (Some config)).
  unfold required_credentials, makeElasticRetriever, makePineconeRetriever,
    makeMongoDBRetriever.
  generalize (retrieverProvider configuration). intros provider Hin Habsent.
  destruct (String.eqb_spec provider "elastic") as [Heq|_];
    [|destruct (String.eqb_spec provider "elastic-local") as [Heq|_];
      [|destruct (String.eqb_spec provider "pinecone") as [Heq|_];
        [|destruct (String.eqb_spec provider "mongodb") as [Heq|_]]]];
    try subst provider;
    cbn [String.eqb Ascii.eqb Bool.eqb] in Hin |- *;
    repeat match type of Hin with
           | _ ∈ _ :: _ => apply elem_of_cons in Hin as [->|Hin]
           | _ ∈ [] => now apply elem_of_nil in Hin
           end;
    rewrite ?Habsent; cbn [js_not orb];
    repeat match goal with
           | |- context [js_not ?x] => destruct (js_not x)
           end;
    cbn [orb]; eauto.
Qed.

Lemma submit_without_retriever (w : World) (config : RunnableConfig)
    (batch : list Document) (t : list Event) (e : Exn) :
  makeRetriever w config = (t, inl e) ->
  outcome (submit w config batch) = inl e
  /\ submissions (trace (submit w config batch)) = [].
Proof.
  intros Hmk. split.
  - unfold submit. now rewrite Hmk.
  - destruct (submit_trace w config batch) as (_ & _ & -> & _).
    now rewrite Hmk.
Qed.


Lemma bind_outcome {A B} (m : Eff A) (k : A -> Eff B) :
  outcome (bind m k)
  = match outcome m with
    | inr a => outcome (k a)
    | inl e => inl e
    end.
Proof.
  destruct m as [t [e|a]]; cbn [bind trace outcome fst snd];
    [reflexivity | now destruct (k a)].
Qed.







Section IndexGraphFacts.

Variable JSON_parse : string -> option JsVal.
Variable reduceDocs : list Document -> JsVal -> list Document.
Variable ensureIndexConfiguration : RunnableConfig -> IndexConfiguration.

Abbreviation index :=
  (indexDocs JSON_parse reduceDocs ensureIndexConfiguration).

Abbreviation run :=
  (runIndexing JSON_parse reduceDocs ensureIndexConfiguration).

(** With a batch in the state, the node goes straight to [submit]. *)
Lemma indexDocs_supplied (w : World) (state : IndexState)
    (config : RunnableConfig) :
  docs state <> [] ->
  index w state (Some config) = submit w config (docs state).
Proof.
  intros Hne. unfold indexDocs, submit.
  destruct (docs state) as [|d ds]; [contradiction|].
  cbn [length Nat.eqb]. now rewrite bind_ret.
Qed.

(** With an empty batch, the node first reads, parses and reduces the
    fallback file. *)
Lemma indexDocs_fallback (w : World) (state : IndexState)
    (config : RunnableConfig) :
  let path := docsFile (ensureIndexConfiguration config) in
  docs state = [] ->
  index w state (Some config)
  = match files w !! path with
    | None =>
        ([Started (ReadFile path "utf-8"); Failed (ReadFile path "utf-8")],
         inl (Rejected "fs" ("ENOENT: " +:+ path)))
    | Some content =>
        match JSON_parse content with
        | None =>
            ([Started (ReadFile path "utf-8");
              Fulfilled (ReadFile path "utf-8")],
             inl (Rejected "JSON.parse" "SyntaxError"))
        | Some raw =>
            ([Started (ReadFile path "utf-8");
              Fulfilled (ReadFile path "utf-8");
              ReduceDocs [] raw]
             ++ trace (submit w config (reduceDocs [] raw)),
             outcome (submit w config (reduceDocs [] raw)))
        end
    end.
Proof.
  intros path Hemp. unfold indexDocs. rewrite Hemp.
  cbn [length Nat.eqb]. fold path.
  unfold readFile, parseJSON, callReduceDocs, lift, await.
  destruct (files w !! path) as [content|]; [|reflexivity].
  rewrite bind_value. cbn [trace outcome fst snd].
  destruct (JSON_parse content) as [raw|]; [|reflexivity].
  rewrite bind_value. cbn [trace outcome fst snd app].
  rewrite bind_value. fold (submit w config (reduceDocs [] raw)).
  reflexivity.
Qed.

(** C10. Invoked without a configuration, [indexDocs] throws
    ["Configuration required to run index_docs."] before any side effect:
    it has read no file, built no retriever and handed nothing to the
    store. *)
Theorem indexDocs_requires_configuration (w : World) (state : IndexState) :
  index w state None
  = ([], inl (Error "Configuration required to run index_docs."))
  /\ trace (index w state None) = []
  /\ reads (trace (index w state None)) = []
  /\ submissions (trace (index w state None)) = [].
Proof. repeat split. Qed.

(** C1. With an empty batch, [indexDocs] loads the documents from the
    configured [docsFile] rather than failing; with a non-empty batch it
    never reads the fallback file and the documents it hands to the store
    are exactly the submitted ones. *)
Theorem indexDocs_batch_or_fallback (w : World) (state : IndexState)
    (config : RunnableConfig) :
  let run := index w state (Some config) in
  let path := docsFile (ensureIndexConfiguration config) in
  (docs state = [] ->
   (exists rest, trace run = Started (ReadFile path "utf-8") :: rest)
   /\ reads (trace run) = [path]
   /\ (forall content raw,
         files w !! path = Some content -> JSON_parse content = Some raw ->
         (forall batch, batch ∈ submissions (trace run) ->
                        batch = reduceDocs [] raw)
         /\ (forall t retriever,
               makeRetriever w config = (t, inr retriever) ->
               submissions (trace run) = [reduceDocs [] raw]
               /\ (store_refuses w retriever (reduceDocs [] raw) = None ->
                   outcome run = inr delete_docs))))
  /\ (docs state <> [] ->
      reads (trace run) = []
      /\ (forall batch, batch ∈ submissions (trace run) ->
                        batch = docs state)
      /\ (forall t retriever,
            makeRetriever w config = (t, inr retriever) ->
            submissions (trace run) = [docs state]
            /\ (store_refuses w retriever (docs state) = None ->
                outcome run = inr delete_docs))).
Proof.
  cbv zeta. split.
  - intros Hemp. rewrite (indexDocs_fallback w state config Hemp).
    set (path := docsFile (ensureIndexConfiguration config)).
    split; [|split].
    + destruct (files w !! path) as [content|]; [|eauto].
      destruct (JSON_parse content) as [raw|]; cbn [trace fst app]; eauto.
    + destruct (files w !! path) as [content|]; [|reflexivity].
      destruct (JSON_parse content) as [raw|]; [|reflexivity].
      cbn [trace fst app]. unfold reads. cbn [omap list_omap read_of].
      f_equal. apply submit_trace.
    + intros content raw -> ->. cbn [trace outcome fst snd app].
      unfold submissions at 1 2. cbn [omap list_omap submission_of].
      fold (submissions (trace (submit w config (reduceDocs [] raw)))).
      split; [apply submissions_elem|].
      intros t retriever Hmk.
      destruct (submit_trace w config (reduceDocs [] raw))
        as (_ & _ & Hsub & _).
      rewrite Hmk in Hsub. split; [exact Hsub|].
      intros Hack.
      destruct (submit_cases w config (reduceDocs [] raw))
        as (tail & _ & Hend).
      rewrite Hmk in Hend. cbn [outcome snd] in Hend.
      inversion Hend; subst; [congruence | reflexivity].
  - intros Hne. rewrite (indexDocs_supplied w state config Hne).
    destruct (submit_trace w config (docs state)) as (Hr & _ & Hsub & _).
    split; [exact Hr|]. split; [apply submissions_elem|].
    intros t retriever Hmk. rewrite Hmk in Hsub. split; [exact Hsub|].
    intros Hack.
    destruct (submit_cases w config (docs state)) as (tail & _ & Hend).
    rewrite Hmk in Hend. cbn [outcome snd] in Hend.
    inversion Hend; subst; [congruence | reflexivity].
Qed.

(** C2. Whatever provider is selected, when one of the credentials it
    requires is absent from the environment, [makeRetriever] fails with an
    error and produces no retriever, and an indexing run on that
    configuration fails without handing any document to the store. *)
Theorem missing_credential_fails (w : World) (config : RunnableConfig)
    (name : string) :
  let provider := retrieverProvider (ensureBaseConfiguration (Some config)) in
  name ∈ required_credentials provider ->
  env w !! name = None ->
  (exists e, makeRetriever w config = ([], inl e))
  /\ (forall state,
        (exists e, outcome (index w state (Some config)) = inl e)
        /\ submissions (trace (index w state (Some config))) = []).
Proof.
  cbv zeta. intros Hin Habsent.
  destruct (missing_credential_retriever w config name Hin Habsent)
    as [e Hmk].
  split; [eauto|]. intros state.
  destruct (docs state) as [|d ds] eqn:Hdocs.
  - rewrite (indexDocs_fallback w state config Hdocs).
    destruct (files w !! _) as [content|]; [|split; [eauto|reflexivity]].
    destruct (JSON_parse content) as [raw|]; [|split; [eauto|reflexivity]].
    cbn [trace outcome fst snd app].
    destruct (submit_without_retriever w config (reduceDocs [] raw) [] e Hmk)
      as [Hout Hsub].
    split; [eauto|]. unfold submissions in *.
    cbn [omap list_omap submission_of]. exact Hsub.
  - rewrite (indexDocs_supplied w state config) by congruence.
    rewrite Hdocs.
    destruct (submit_without_retriever w config (d :: ds) [] e Hmk)
      as [Hout Hsub].
    split; [eauto | exact Hsub].
Qed.





(** C6. [indexDocs] returns only after the store has acknowledged the
    whole batch: the trace of every run that returns ends with the
    acknowledged [addDocuments] call, and that call carries the full
    batch. *)
Theorem indexDocs_returns_after_acknowledgement (w : World)
    (state : IndexState) (config : option RunnableConfig)
    (update : IndexUpdate) :
  outcome (index w state config) = inr update ->
  exists pre retriever batch,
    trace (index w state config)
    = pre ++ [Started (AddDocuments retriever batch);
              Fulfilled (AddDocuments retriever batch)]
    /\ store_refuses w retriever batch = None
    /\ submissions pre = []
    /\ (docs state <> [] -> batch = docs state)
    /\ (docs state = [] ->
        exists cfg content raw,
          config = Some cfg
          /\ files w !! docsFile (ensureIndexConfiguration cfg) = Some content
          /\ JSON_parse content = Some raw
          /\ batch = reduceDocs [] raw).
Proof.
  destruct config as [config|]; [|discriminate].
  assert (Hsubmit : forall batch,
             outcome (submit w config batch) = inr update ->
             exists retriever,
               trace (submit w config batch)
               = trace (makeRetriever w config)
                 ++ [Started (AddDocuments retriever batch);
                     Fulfilled (AddDocuments retriever batch)]
               /\ store_refuses w retriever batch = None).
  { intros batch Hout.
    destruct (submit_cases w config batch) as (tail & Heq & Hend).
    rewrite Hout in Hend. rewrite Heq. cbn [trace fst].
    inversion Hend; subst. eauto. }
  pose proof (pinecone_events_silent _ [] (makeRetriever_events w config))
    as (_ & Hsilent & _).
  rewrite app_nil_r in Hsilent. change (submissions []) with (@nil (list Document)) in Hsilent.
  destruct (docs state) as [|d ds] eqn:Hdocs.
  - rewrite (indexDocs_fallback w state config Hdocs).
    destruct (files w !! _) as [content|] eqn:Hfile; [|discriminate].
    destruct (JSON_parse content) as [raw|] eqn:Hparse; [|discriminate].
    cbn [trace outcome fst snd]. intros Hout.
    destruct (Hsubmit _ Hout) as (retriever & -> & Hack).
    exists ([Started (ReadFile (docsFile (ensureIndexConfiguration config))
                               "utf-8");
             Fulfilled (ReadFile (docsFile (ensureIndexConfiguration config))
                                 "utf-8");
             ReduceDocs [] raw] ++ trace (makeRetriever w config)),
      retriever, (reduceDocs [] raw).
    split; [reflexivity|]. split; [exact Hack|]. split; [|split].
    + unfold submissions in *. rewrite omap_app, Hsilent. reflexivity.
    + congruence.
    + intros _. exists config, content, raw. now repeat split.
  - rewrite (indexDocs_supplied w state config) by congruence.
    rewrite Hdocs. intros Hout.
    destruct (Hsubmit _ Hout) as (retriever & -> & Hack).
    exists (trace (makeRetriever w config)), retriever, (d :: ds).
    split; [reflexivity|]. split; [exact Hack|].
    split; [exact Hsilent|]. split; [reflexivity | discriminate].
Qed.

(** C7. Every run of [indexDocs] that succeeds returns exactly the update
    [{ docs: "delete" }]; written to the [docs] channel, that update empties
    it, so that an indexing run that succeeds ends with no document left in
    the graph state, whatever batch it was given. *)
Theorem indexDocs_clears_batch (w : World) :
  (forall state config update,
      outcome (index w state config) = inr update ->
      update = {| upd_docs := JStr "delete" |}
      /\ write_docs reduceDocs state (upd_docs update)
         = ([], inr {| docs := [] |}))
  /\ (forall batch config final,
        outcome (run w batch config) = inr final ->
        docs final = []).
Proof.
  assert (Hnode : forall state config update,
             outcome (index w state config) = inr update ->
             update = delete_docs).
  { intros state [config|] update; [|discriminate].
    assert (Hsubmit : forall batch,
               outcome (submit w config batch) = inr update ->
               update = delete_docs).
    { intros batch Hout.
      destruct (submit_cases w config batch) as (tail & _ & Hend).
      rewrite Hout in Hend. now inversion Hend. }
    destruct (docs state) as [|d ds] eqn:Hdocs.
    - rewrite (indexDocs_fallback w state config Hdocs).
      destruct (files w !! _) as [content|]; [|discriminate].
      destruct (JSON_parse content) as [raw|]; [|discriminate].
      apply Hsubmit.
    - rewrite (indexDocs_supplied w state config) by congruence.
      apply Hsubmit. }
  split.
  - intros state config update Hout.
    rewrite (Hnode state config update Hout). now split.
  - intros batch config final. unfold runIndexing. cbv zeta.
    rewrite bind_outcome.
    destruct (outcome _) as [e|state]; [discriminate|].
    rewrite bind_outcome.
    destruct (outcome (index w state config)) as [e|update] eqn:Hout;
      [discriminate|].
    rewrite (Hnode state config update Hout).
    intros [= <-]. reflexivity.
Qed.

End IndexGraphFacts.

(** ** The node on sample inputs *)

Example makeRetriever_local :
  makeRetriever local_world default_config = ([], inr local_retriever).
Proof. reflexivity. Qed.

Example indexDocs_supplied_run :
  index_sample local_world one_doc_state (Some default_config)
  = ([Started (AddDocuments local_retriever [a_document]);
      Fulfilled (AddDocuments local_retriever [a_document])],
     inr delete_docs).
Proof. reflexivity. Qed.

Example indexDocs_fallback_run :
  index_sample local_world empty_state (Some default_config)
  = ([Started (ReadFile "sample_docs.json" "utf-8");
      Fulfilled (ReadFile "sample_docs.json" "utf-8");
      ReduceDocs [] (JArr [JObj ∅]);
      Started (AddDocuments local_retriever
                 [{| pageContent := ""; metadata := ∅ |}]);
      Fulfilled (AddDocuments local_retriever
                   [{| pageContent := ""; metadata := ∅ |}])],
     inr delete_docs).
Proof. reflexivity. Qed.

Example indexDocs_bare_run :
  index_sample bare_world one_doc_state (Some default_config)
  = ([], inl (Error "ELASTICSEARCH_URL environment variable is not defined")).
Proof. reflexivity. Qed.

Lemma makeRetriever_selects_backend_witness :
  enumerated_provider "elastic-local"
  /\ selected_backend "elastic-local"
     = Some (backend_of (vectorStore local_retriever))
  /\ outcome (makeRetriever local_world default_config)
     <> inl (unrecognized_provider "elastic-local")
  /\ makeRetriever local_world chroma_config
     = ([], inl (unrecognized_provider "chroma")).
Proof.
  destruct (makeRetriever_selects_backend local_world default_config)
    as (_ & Hsel & _ & Hreach & _).
  destruct (makeRetriever_selects_backend local_world chroma_config)
    as (_ & _ & Hout & _).
  destruct (Hsel [] local_retriever eq_refl) as [Henum Hback].
  split; [exact Henum|]. split; [exact Hback|].
  split; [exact (Hreach Henum)|].
  apply Hout with (embeddings := GeminiEmbeddings "gemini-embedding-001").
  - intros [H|[H|[H|H]]]; discriminate H.
  - reflexivity.
Defined.

Lemma missing_credential_fails_witness :
  "ELASTICSEARCH_URL" ∈ required_credentials "elastic-local"
  /\ env bare_world !! "ELASTICSEARCH_URL" = None
  /\ (exists e, makeRetriever bare_world default_config = ([], inl e))
  /\ submissions
       (trace (index_sample bare_world one_doc_state (Some default_config)))
     = [].
Proof.
  assert (Hin : "ELASTICSEARCH_URL" ∈ required_credentials "elastic-local")
    by apply list_elem_of_here.
  destruct (missing_credential_fails
              parse_sample reduce_sample index_configuration_sample
              bare_world default_config "ELASTICSEARCH_URL" Hin eq_refl)
    as [Hfail Hrun].
  split; [exact Hin|]. split; [reflexivity|]. split; [exact Hfail|].
  exact (proj2 (Hrun one_doc_state)).
Defined.

Lemma indexDocs_batch_or_fallback_witness :
  reads (trace (index_sample local_world empty_state (Some default_config)))
  = ["sample_docs.json"]
  /\ submissions
       (trace (index_sample local_world empty_state (Some default_config)))
     = [reduce_sample [] (JArr [JObj ∅])]
  /\ reads (trace (index_sample local_world one_doc_state
                     (Some default_config))) = []
  /\ submissions
       (trace (index_sample local_world one_doc_state (Some default_config)))
     = [[a_document]].
Proof.
  destruct (indexDocs_batch_or_fallback
              parse_sample reduce_sample index_configuration_sample
              local_world empty_state default_config) as [Hfallback _].
  destruct (indexDocs_batch_or_fallback
              parse_sample reduce_sample index_configuration_sample
              local_world one_doc_state default_config) as [_ Hbatch].
  destruct (Hfallback eq_refl) as (_ & Hread & Hload).
  destruct (Hload "[{}]" (JArr [JObj ∅]) eq_refl eq_refl) as (_ & Hsub).
  destruct (Hbatch ltac:(discriminate)) as (Hnoread & _ & Hgiven).
  split; [exact Hread|].
  split; [exact (proj1 (Hsub [] local_retriever eq_refl))|].
  split; [exact Hnoread|].
  exact (proj1 (Hgiven [] local_retriever eq_refl)).
Defined.


Lemma indexDocs_returns_after_acknowledgement_witness :
  outcome (index_sample local_world one_doc_state (Some default_config))
  = inr delete_docs
  /\ exists pre retriever,
       trace (index_sample local_world one_doc_state (Some default_config))
       = pre ++ [Started (AddDocuments retriever [a_document]);
                 Fulfilled (AddDocuments retriever [a_document])]
       /\ store_refuses local_world retriever [a_document] = None.
Proof.
  split; [reflexivity|].
  destruct (indexDocs_returns_after_acknowledgement
              parse_sample reduce_sample index_configuration_sample
              local_world one_doc_state (Some default_config) delete_docs
              eq_refl)
    as (pre & retriever & batch & Htrace & Hack & _ & Hbatch & _).
  rewrite (Hbatch ltac:(discriminate)) in Htrace, Hack.
  exists pre, retriever. split; assumption.
Defined.

Lemma indexDocs_clears_batch_witness :
  outcome (run_sample local_world (Some raw_batch) (Some openai_config))
  = inr {| docs := [] |}
  /\ outcome (index_sample local_world
                {| docs := reduce_sample [] raw_batch |} (Some openai_config))
     = inr {| upd_docs := JStr "delete" |}.
Proof.
  split; [reflexivity|].
  rewrite <- (proj1 (proj1 (indexDocs_clears_batch
                              parse_sample reduce_sample
                              index_configuration_sample local_world)
                       {| docs := reduce_sample [] raw_batch |}
                       (Some openai_config) delete_docs eq_refl)).
  reflexivity.
Defined.

(** * Further properties of the code *)

(** ** Embedding providers, read backwards *)

(** X1. The embeddings [makeTextEmbeddings] returns identify the name it
    was given: OpenAI and Cohere embeddings come only from ["openai/<model>"]
    and ["cohere/<model>"], and Gemini embeddings only from
    ["gemini/<model>"] or from the bare, slash-free model name. *)
Theorem makeTextEmbeddings_inversion (w : World) (modelName : string)
    (e : Embeddings) :
  makeTextEmbeddings w modelName = inr e ->
  match e with
  | GeminiEmbeddings model =>
      modelName = "gemini/" +:+ model
      \/ (modelName = model /\ occurs "/" model = false)
  | OpenAIEmbeddings model => modelName = "openai/" +:+ model
  | CohereEmbeddings model => modelName = "cohere/" +:+ model
  end.
Proof.
  destruct (first_occurrence "/" modelName) as [Hno | (p & m & -> & Hp)].
  - rewrite makeTextEmbeddings_no_slash by assumption.
    intros H. apply construct_sync_returns in H as [-> _]. now right.
  - change (p +:+ String "/" m) with (p +:+ "/" +:+ m).
    rewrite makeTextEmbeddings_slash by assumption. unfold embeddings_case.
    destruct (String.eqb_spec p "gemini") as [Hg|_];
      [subst p; intros H; apply construct_sync_returns in H as [-> _];
       now left|].
    destruct (String.eqb_spec p "openai") as [Ho|_];
      [subst p; intros H; now apply construct_sync_returns in H as [-> _]|].
    destruct (String.eqb_spec p "cohere") as [Hc|_];
      [subst p; intros H; now apply construct_sync_returns in H as [-> _]|].
    discriminate.
Qed.

Lemma makeTextEmbeddings_inversion_witness :
  makeTextEmbeddings local_world "cohere/embed/v3"
  = inr (CohereEmbeddings "embed/v3")
  /\ "cohere/embed/v3" = "cohere/" +:+ "embed/v3".
Proof.
  split; [reflexivity|].
  exact (makeTextEmbeddings_inversion
           local_world "cohere/embed/v3" (CohereEmbeddings "embed/v3")
           eq_refl).
Defined.

(** ** Configuration, further *)

Lemma js_or_idempotent {A} `{Truthy A} (x : option A) (d : A) :
  js_or (Some (js_or x d)) d = js_or x d.
Proof.
  unfold js_or. destruct x as [v|].
  - destruct (truthy v) eqn:Hv; [now rewrite Hv|].
    now destruct (truthy d).
  - now destruct (truthy d).
Qed.

Lemma js_or_string_nonempty (x : option string) (d : string) :
  d <> "" -> js_or x d <> "".
Proof.
  intros Hd. unfold js_or, truthy, string_truthy.
  destruct x as [v|]; [|exact Hd].
  now destruct (String.eqb_spec v "").
Qed.

Section ConfigurationFurther.

Variables ROUTER_SYSTEM_PROMPT MORE_INFO_SYSTEM_PROMPT
          GENERAL_SYSTEM_PROMPT RESEARCH_PLAN_SYSTEM_PROMPT
          GENERATE_QUERIES_SYSTEM_PROMPT RESPONSE_SYSTEM_PROMPT : string.

Abbreviation ensureAgent' :=
  (ensureAgentConfiguration
     ROUTER_SYSTEM_PROMPT MORE_INFO_SYSTEM_PROMPT GENERAL_SYSTEM_PROMPT
     RESEARCH_PLAN_SYSTEM_PROMPT GENERATE_QUERIES_SYSTEM_PROMPT
     RESPONSE_SYSTEM_PROMPT).

Abbreviation default_of' :=
  (documented_default
     ROUTER_SYSTEM_PROMPT MORE_INFO_SYSTEM_PROMPT GENERAL_SYSTEM_PROMPT
     RESEARCH_PLAN_SYSTEM_PROMPT GENERATE_QUERIES_SYSTEM_PROMPT
     RESPONSE_SYSTEM_PROMPT).

(** X2. Both constructors are idempotent: a constructed configuration, passed
    back in as [configurable], is constructed into itself, whatever the
    original configuration and the prompt constants were. *)
Theorem configuration_idempotent (config : option RunnableConfig) :
  let again a := Some {| configurable := Some (as_configurable a) |} in
  ensureAgent' (again (ensureAgent' config)) = ensureAgent' config
  /\ ensureBaseConfiguration (again (ensureAgent' config))
     = ensureBaseConfiguration config.
Proof.
  cbv zeta.
  assert (Hbase : ensureBaseConfiguration
                    (Some {| configurable :=
                               Some (as_configurable (ensureAgent' config)) |})
                  = ensureBaseConfiguration config).
  { unfold ensureBaseConfiguration at 1. rewrite configurable_of_present.
    unfold ensureBaseConfiguration, ensureAgentConfiguration, as_configurable.
    cbn [cfg_embeddingModel cfg_retrieverProvider cfg_searchKwargs
         baseConfig embeddingModel retrieverProvider searchKwargs].
    unfold ensureBaseConfiguration.
    cbn [embeddingModel retrieverProvider searchKwargs].
    now rewrite !js_or_idempotent. }
  split; [|exact Hbase].
  unfold ensureAgentConfiguration at 1. rewrite Hbase.
  rewrite configurable_of_present.
  unfold ensureAgentConfiguration, as_configurable.
  cbn [cfg_queryModel cfg_responseModel cfg_routerSystemPrompt
       cfg_moreInfoSystemPrompt cfg_generalSystemPrompt
       cfg_researchPlanSystemPrompt cfg_generateQueriesSystemPrompt
       cfg_responseSystemPrompt queryModel responseModel routerSystemPrompt
       moreInfoSystemPrompt generalSystemPrompt researchPlanSystemPrompt
       generateQueriesSystemPrompt responseSystemPrompt].
  now rewrite !js_or_idempotent.
Qed.

(** X3. No configuration, however it is filled in, leaves a constructed
    option empty unless its default is empty: the embedding model, the
    retriever provider and the two chat models are never the empty string,
    and a prompt is empty only if its constant is. *)
Theorem configured_never_empty (config : option RunnableConfig)
    (o : StringOption) :
  (default_of' o <> "" -> configured o (ensureAgent' config) <> "")
  /\ embeddingModel (ensureBaseConfiguration config) <> ""
  /\ retrieverProvider (ensureBaseConfiguration config) <> ""
  /\ queryModel (ensureAgent' config) <> ""
  /\ responseModel (ensureAgent' config) <> "".
Proof.
  split; [|repeat split; now apply js_or_string_nonempty].
  intros Hd. destruct o; now apply js_or_string_nonempty.
Qed.

End ConfigurationFurther.

Lemma configured_never_empty_witness :
  configured RouterSystemPrompt
    (ensureAgentConfiguration "route" "ask" "chat" "plan" "search" "answer"
       (Some blank_config)) <> "".
Proof.
  apply (configured_never_empty "route" "ask" "chat" "plan" "search" "answer"
           (Some blank_config) RouterSystemPrompt).
  discriminate.
Defined.

(** ** The ReAct agent's configuration *)

(** X4. [ensureConfiguration] defaults on absence only: an option that is
    missing or [null] (and every option when [configurable] itself is
    missing) gets its default, every other supplied value is passed through
    unchanged, the empty string included, and no constructed option is
    [null]. *)
Theorem react_configuration_nullish (SYSTEM_PROMPT_TEMPLATE : string)
    (config : ReactAgent.RunnableConfig) :
  let c := match ReactAgent.configurable config with
           | Some c => c
           | None => ∅
           end in
  let built := ReactAgent.ensureConfiguration SYSTEM_PROMPT_TEMPLATE config in
  (c !! "systemPromptTemplate" = None
   \/ c !! "systemPromptTemplate" = Some JNull ->
   ReactAgent.systemPromptTemplate built = JStr SYSTEM_PROMPT_TEMPLATE)
  /\ (c !! "model" = None \/ c !! "model" = Some JNull ->
      ReactAgent.model built = JStr "gemini-2.5-flash")
  /\ (forall v, c !! "systemPromptTemplate" = Some v -> v <> JNull ->
                ReactAgent.systemPromptTemplate built = v)
  /\ (forall v, c !! "model" = Some v -> v <> JNull ->
                ReactAgent.model built = v)
  /\ ReactAgent.systemPromptTemplate built <> JNull
  /\ ReactAgent.model built <> JNull.
Proof.
  cbv zeta. unfold ReactAgent.ensureConfiguration.
  cbn [ReactAgent.systemPromptTemplate ReactAgent.model].
  set (c := match ReactAgent.configurable config with
            | Some c => c
            | None => ∅
            end).
  split; [|split; [|split; [|split; [|split]]]].
  - intros [-> | ->]; reflexivity.
  - intros [-> | ->]; reflexivity.
  - intros v -> Hv. destruct v; try reflexivity. contradiction.
  - intros v -> Hv. destruct v; try reflexivity. contradiction.
  - destruct (c !! "systemPromptTemplate") as [[]|]; discriminate.
  - destruct (c !! "model") as [[]|]; discriminate.
Qed.

Lemma react_configuration_nullish_witness :
  ReactAgent.systemPromptTemplate
    (ReactAgent.ensureConfiguration "You are a helpful assistant."
       {| ReactAgent.configurable :=
            Some {[ "systemPromptTemplate" := JStr ""; "model" := JNull ]} |})
  = JStr ""
  /\ ReactAgent.model
       (ReactAgent.ensureConfiguration "You are a helpful assistant."
          {| ReactAgent.configurable :=
               Some {[ "systemPromptTemplate" := JStr "";
                       "model" := JNull ]} |})
     = JStr "gemini-2.5-flash".
Proof.
  destruct (react_configuration_nullish "You are a helpful assistant."
              {| ReactAgent.configurable :=
                   Some {[ "systemPromptTemplate" := JStr "";
                           "model" := JNull ]} |})
    as (_ & Hmodel & Hprompt & _).
  split.
  - apply Hprompt; [reflexivity | discriminate].
  - apply Hmodel. right. reflexivity.
Defined.
(** ** Retriever construction, further *)

Lemma js_not_false (x : option string) :
  js_not x = false <-> exists v, x = Some v /\ v <> "".
Proof.
  unfold js_not, truthy, string_truthy. destruct x as [v|].
  - destruct (String.eqb_spec v "") as [->|Hne]; cbn.
    + split; [discriminate | intros (v & [= <-] & Hv); contradiction].
    + split; [eauto | reflexivity].
  - split; [discriminate | intros (v & Hv & _); discriminate].
Qed.

Lemma present_js_not (w : World) (name : string) :
  present w name <-> js_not (env w !! name) = false.
Proof. unfold present. now rewrite js_not_false. Qed.

Lemma not_present_js_not (w : World) (name : string) :
  ~ present w name <-> js_not (env w !! name) = true.
Proof.
  rewrite present_js_not. destruct (js_not _); split; congruence.
Qed.

Lemma narrowed_present (x : option string) (v : string) :
  x = Some v -> narrowed x = v.
Proof. now intros ->. Qed.

(** X5. What [makeElasticRetriever] returns, it built without awaiting
    anything, for the node in [ELASTICSEARCH_URL] and the index
    ["langchain_index"]; it authenticates with user and password exactly when
    the provider is ["elastic-local"] and with the API key for every other
    provider, and each value it uses is set and non-empty. *)
Theorem makeElasticRetriever_auth_mode (w : World)
    (configuration : BaseConfiguration) (embeddings : Embeddings)
    (t : list Event) (retriever : VectorStoreRetriever) :
  makeElasticRetriever w configuration embeddings = (t, inr retriever) ->
  t = []
  /\ filter retriever = searchKwargs configuration
  /\ exists url,
      env w !! "ELASTICSEARCH_URL" = Some url /\ url <> ""
      /\ ((retrieverProvider configuration = "elastic-local"
           /\ exists user password,
               env w !! "ELASTICSEARCH_USER" = Some user /\ user <> ""
               /\ env w !! "ELASTICSEARCH_PASSWORD" = Some password
               /\ password <> ""
               /\ vectorStore retriever
                  = ElasticVectorSearch embeddings url
                      (BasicAuth user password) "langchain_index")
          \/ (retrieverProvider configuration <> "elastic-local"
              /\ exists apiKey,
                  env w !! "ELASTICSEARCH_API_KEY" = Some apiKey
                  /\ apiKey <> ""
                  /\ vectorStore retriever
                     = ElasticVectorSearch embeddings url
                         (ApiKeyAuth apiKey) "langchain_index")).
Proof.
  unfold makeElasticRetriever.
  destruct (js_not (env w !! "ELASTICSEARCH_URL")) eqn:Hurl; [discriminate|].
  apply js_not_false in Hurl as (url & Hurl & Hurl_ne). rewrite Hurl.
  change (narrowed (Some url)) with url.
  destruct (String.eqb_spec (retrieverProvider configuration) "elastic-local")
    as [Hlocal|Hother].
  - destruct (js_not (env w !! "ELASTICSEARCH_USER")) eqn:Huser;
      [discriminate|].
    destruct (js_not (env w !! "ELASTICSEARCH_PASSWORD")) eqn:Hpw;
      [discriminate|].
    apply js_not_false in Huser as (user & Huser & Huser_ne).
    apply js_not_false in Hpw as (pw & Hpw & Hpw_ne).
    rewrite Huser, Hpw. cbn [orb]. rewrite bind_ret. library_cases;
      intros H; try discriminate H. injection H as <- <-.
    split; [reflexivity|]. split; [reflexivity|].
    exists url. split; [reflexivity|]. split; [assumption|]. left.
    split; [assumption|]. exists user, pw. now repeat split.
  - destruct (js_not (env w !! "ELASTICSEARCH_API_KEY")) eqn:Hkey;
      [discriminate|].
    apply js_not_false in Hkey as (key & Hkey & Hkey_ne).
    rewrite Hkey. rewrite bind_ret. library_cases;
      intros H; try discriminate H. injection H as <- <-.
    split; [reflexivity|]. split; [reflexivity|].
    exists url. split; [reflexivity|]. split; [assumption|]. right.
    split; [assumption|]. exists key. now repeat split.
Qed.

(** X6. [makeElasticRetriever] checks the URL before the credentials: without
    a non-empty [ELASTICSEARCH_URL] it reports the URL whatever else is set;
    with it, a local provider lacking user or password reports those two, and
    any other provider lacking the API key reports the key.  In every
    remaining case it builds the client, the store and the retriever, in this
    order: the first of these library calls that throws gives the error, and
    the retriever is returned when none does.  An empty value counts as
    missing. *)
Theorem makeElasticRetriever_error_order (w : World)
    (configuration : BaseConfiguration) (embeddings : Embeddings) :
  let made := makeElasticRetriever w configuration embeddings in
  let kwargs := searchKwargs configuration in
  (~ present w "ELASTICSEARCH_URL" ->
   made = ([], inl (Error "ELASTICSEARCH_URL environment variable is not defined")))
  /\ (forall url,
        env w !! "ELASTICSEARCH_URL" = Some url -> url <> "" ->
        (retrieverProvider configuration = "elastic-local" ->
         (~ (present w "ELASTICSEARCH_USER"
             /\ present w "ELASTICSEARCH_PASSWORD") ->
          made = ([], inl (Error "ELASTICSEARCH_USER or ELASTICSEARCH_PASSWORD environment variable is not defined")))
         /\ (forall user password,
               env w !! "ELASTICSEARCH_USER" = Some user -> user <> "" ->
               env w !! "ELASTICSEARCH_PASSWORD" = Some password ->
               password <> "" ->
               made
               = ([], built_through w
                        (elastic_calls embeddings url
                           (BasicAuth user password) kwargs)
                        (asRetriever
                           (elastic_store embeddings url
                              (BasicAuth user password))
                           kwargs))))
        /\ (retrieverProvider configuration <> "elastic-local" ->
            (~ present w "ELASTICSEARCH_API_KEY" ->
             made = ([], inl (Error "ELASTICSEARCH_API_KEY environment variable is not defined")))
            /\ (forall apiKey,
                  env w !! "ELASTICSEARCH_API_KEY" = Some apiKey ->
                  apiKey <> "" ->
                  made
                  = ([], built_through w
                           (elastic_calls embeddings url
                              (ApiKeyAuth apiKey) kwargs)
                           (asRetriever
                              (elastic_store embeddings url
                                 (ApiKeyAuth apiKey))
                              kwargs))))).
Proof.
  cbv zeta. unfold makeElasticRetriever. split.
  - intros Hurl. apply not_present_js_not in Hurl. now rewrite Hurl.
  - intros url Hurl Hurl_ne.
    assert (Hnot : js_not (env w !! "ELASTICSEARCH_URL") = false)
      by (apply js_not_false; eauto).
    rewrite Hnot, Hurl. change (narrowed (Some url)) with url. split.
    + intros ->. cbn [String.eqb Ascii.eqb Bool.eqb]. split.
      * intros Hmissing.
        destruct (js_not (env w !! "ELASTICSEARCH_USER")) eqn:Huser;
          [reflexivity|].
        destruct (js_not (env w !! "ELASTICSEARCH_PASSWORD")) eqn:Hpw;
          [reflexivity|].
        exfalso. apply Hmissing. now rewrite !present_js_not.
      * intros user password Huser Huser_ne Hpw Hpw_ne.
        assert (Hu : js_not (env w !! "ELASTICSEARCH_USER") = false)
          by (apply js_not_false; eauto).
        assert (Hp : js_not (env w !! "ELASTICSEARCH_PASSWORD") = false)
          by (apply js_not_false; eauto).
        rewrite Hu, Hp, Huser, Hpw. cbn [orb]. rewrite bind_ret.
        unfold built_through, elastic_calls, first_refusal, elastic_store.
        change (narrowed (Some user)) with user.
        change (narrowed (Some password)) with password.
        library_cases; reflexivity.
    + intros Hother.
      destruct (String.eqb_spec (retrieverProvider configuration)
                                "elastic-local"); [contradiction|].
      split.
      * intros Hkey. apply not_present_js_not in Hkey. now rewrite Hkey.
      * intros apiKey Hkey Hkey_ne.
        assert (Hk : js_not (env w !! "ELASTICSEARCH_API_KEY") = false)
          by (apply js_not_false; eauto).
        rewrite Hk, Hkey. rewrite bind_ret.
        unfold built_through, elastic_calls, first_refusal, elastic_store.
        change (narrowed (Some apiKey)) with apiKey.
        library_cases; reflexivity.
Qed.

(** X7. [makeMongoDBRetriever] needs a non-empty [MONGODB_URI]: without one
    it throws its own error.  With one it makes four library calls in order,
    without awaiting anything: the client for that URI, collection
    ["default"] of database ["langgraph_retrieval_agent"], the store with text
    key ["text"], embedding key ["embedding"] and index ["vector_index"], and
    the retriever.  The first call that throws gives the error, and the
    retriever over that collection is returned when none does. *)
Theorem makeMongoDBRetriever_target (w : World)
    (configuration : BaseConfiguration) (embeddings : Embeddings) :
  (forall uri,
      env w !! "MONGODB_URI" = Some uri -> uri <> "" ->
      makeMongoDBRetriever w configuration embeddings
      = ([], built_through w
               (mongodb_calls embeddings uri (searchKwargs configuration))
               (asRetriever (mongodb_store embeddings uri)
                            (searchKwargs configuration))))
  /\ (~ present w "MONGODB_URI" ->
      makeMongoDBRetriever w configuration embeddings
      = ([], inl (Error "MONGODB_URI environment variable is not defined"))).
Proof.
  unfold makeMongoDBRetriever. split.
  - intros uri Huri Hne.
    assert (Hnot : js_not (env w !! "MONGODB_URI") = false)
      by (apply js_not_false; eauto).
    rewrite Hnot, Huri. change (narrowed (Some uri)) with uri.
    cbv zeta.
    change (nth 0 (split "." "langgraph_retrieval_agent.default") "")
      with "langgraph_retrieval_agent".
    change (nth 1 (split "." "langgraph_retrieval_agent.default") "")
      with "default".
    unfold built_through, mongodb_calls, first_refusal, mongodb_store.
    library_cases; reflexivity.
  - intros Hmissing. apply not_present_js_not in Hmissing.
    now rewrite Hmissing.
Qed.

(** X8. [makePineconeRetriever] awaits one thing, the lookup of the index
    named by [PINECONE_INDEX_NAME].  When the name is missing or empty, or
    when the Pinecone client or its index handle cannot be built (the client
    throws without its API key), no lookup is started.  Otherwise the lookup
    is started once: its refusal is the error of the constructor, and after
    its success the retriever over that index is built. *)
Theorem makePineconeRetriever_lookup (w : World)
    (configuration : BaseConfiguration) (embeddings : Embeddings) :
  let made := makePineconeRetriever w configuration embeddings in
  (~ present w "PINECONE_INDEX_NAME" ->
   made
   = ([], inl (Error "PINECONE_INDEX_NAME environment variable is not defined")))
  /\ (forall index,
        env w !! "PINECONE_INDEX_NAME" = Some index -> index <> "" ->
        (forall reason,
            first_refusal w (pinecone_calls index) = Some reason ->
            made = ([], inl (Rejected "library" reason)))
        /\ (first_refusal w (pinecone_calls index) = None ->
            (forall reason,
                pinecone_refuses w embeddings index = Some reason ->
                made
                = ([Started (FromExistingIndex embeddings index);
                    Failed (FromExistingIndex embeddings index)],
                   inl (Rejected "pinecone" reason)))
            /\ (pinecone_refuses w embeddings index = None ->
                made
                = ([Started (FromExistingIndex embeddings index);
                    Fulfilled (FromExistingIndex embeddings index)],
                   built_through w
                     [AsRetriever (PineconeStore embeddings index)
                                  (searchKwargs configuration)]
                     (asRetriever (PineconeStore embeddings index)
                                  (searchKwargs configuration)))))).
Proof.
  cbv zeta. unfold makePineconeRetriever, fromExistingIndex. split.
  - intros Hmissing. apply not_present_js_not in Hmissing.
    now rewrite Hmissing.
  - intros index Hindex Hne.
    assert (Hnot : js_not (env w !! "PINECONE_INDEX_NAME") = false)
      by (apply js_not_false; eauto).
    rewrite Hnot, Hindex. change (narrowed (Some index)) with index.
    rewrite !bind_construct, js_or_object.
    unfold pinecone_calls, built_through, first_refusal.
    destruct (library_refuses w NewPineconeClient) as [r1|].
    { split; [now intros reason [= <-] | discriminate]. }
    destruct (library_refuses w (PineconeIndex index)) as [r2|].
    { split; [now intros reason [= <-] | discriminate]. }
    split; [discriminate|]. intros _. split.
    + now intros reason ->.
    + intros ->. unfold await. rewrite bind_value.
      unfold construct, construct_sync, lift.
      now destruct (library_refuses w (AsRetriever _ _)).
Qed.

Lemma makeElasticRetriever_auth_mode_witness :
  makeElasticRetriever local_world (ensureBaseConfiguration (Some default_config))
    (GeminiEmbeddings "gemini-embedding-001")
  = ([], inr local_retriever)
  /\ filter local_retriever
     = searchKwargs (ensureBaseConfiguration (Some default_config)).
Proof.
  split; [reflexivity|].
  exact (proj1 (proj2 (makeElasticRetriever_auth_mode
                         local_world
                         (ensureBaseConfiguration (Some default_config))
                         (GeminiEmbeddings "gemini-embedding-001")
                         [] local_retriever eq_refl))).
Defined.

Lemma makeElasticRetriever_error_order_witness :
  (~ present bare_world "ELASTICSEARCH_URL"
   /\ makeElasticRetriever bare_world
        (ensureBaseConfiguration (Some default_config))
        (OpenAIEmbeddings "text-embedding-3-small")
      = ([], inl (Error "ELASTICSEARCH_URL environment variable is not defined")))
  /\ makeElasticRetriever malformed_world
       (ensureBaseConfiguration (Some default_config))
       (OpenAIEmbeddings "text-embedding-3-small")
     = ([], inl (Rejected "library" "Invalid URL")).
Proof.
  assert (Hmissing : ~ present bare_world "ELASTICSEARCH_URL")
    by (apply not_present_js_not; reflexivity).
  split; [split; [exact Hmissing|]|].
  - exact (proj1 (makeElasticRetriever_error_order
                    bare_world (ensureBaseConfiguration (Some default_config))
                    (OpenAIEmbeddings "text-embedding-3-small")) Hmissing).
  - destruct (proj2 (makeElasticRetriever_error_order
                       malformed_world
                       (ensureBaseConfiguration (Some default_config))
                       (OpenAIEmbeddings "text-embedding-3-small"))
                "localhost:9200" eq_refl) as [Hlocal _]; [discriminate|].
    destruct (Hlocal eq_refl) as [_ Hbuilt].
    apply (Hbuilt "elastic" "changeme"); (reflexivity || discriminate).
Defined.

Lemma makeMongoDBRetriever_target_witness :
  (exists retriever,
      makeMongoDBRetriever mongo_world
        (ensureBaseConfiguration (Some default_config))
        (CohereEmbeddings "embed-v3")
      = ([], inr retriever)
      /\ backend_of (vectorStore retriever) = MongoDB)
  /\ makeMongoDBRetriever malformed_world
       (ensureBaseConfiguration (Some default_config))
       (CohereEmbeddings "embed-v3")
     = ([], inl (Rejected "library" "MongoParseError: Invalid scheme")).
Proof.
  split.
  - eexists. split.
    + apply (proj1 (makeMongoDBRetriever_target
                      mongo_world
                      (ensureBaseConfiguration (Some default_config))
                      (CohereEmbeddings "embed-v3"))
               "mongodb://localhost:27017");
        [reflexivity | discriminate].
    + reflexivity.
  - apply (proj1 (makeMongoDBRetriever_target
                    malformed_world
                    (ensureBaseConfiguration (Some default_config))
                    (CohereEmbeddings "embed-v3"))
             "localhost:27017");
      [reflexivity | discriminate].
Defined.

Lemma makePineconeRetriever_lookup_witness :
  makePineconeRetriever refusing_world
    (ensureBaseConfiguration (Some pinecone_config))
    (OpenAIEmbeddings "text-embedding-3-small")
  = ([Started (FromExistingIndex (OpenAIEmbeddings "text-embedding-3-small")
                 "docs");
      Fulfilled (FromExistingIndex (OpenAIEmbeddings "text-embedding-3-small")
                   "docs")],
     inr pinecone_retriever)
  /\ makePineconeRetriever malformed_world
       (ensureBaseConfiguration (Some pinecone_config))
       (OpenAIEmbeddings "text-embedding-3-small")
     = ([], inl (Rejected "library" "PINECONE_API_KEY is not set")).
Proof.
  split.
  - destruct (proj2 (makePineconeRetriever_lookup
                       refusing_world
                       (ensureBaseConfiguration (Some pinecone_config))
                       (OpenAIEmbeddings "text-embedding-3-small"))
                "docs" eq_refl) as [_ Hbuilt]; [discriminate|].
    destruct (Hbuilt eq_refl) as [_ Hok]. exact (Hok eq_refl).
  - destruct (proj2 (makePineconeRetriever_lookup
                       malformed_world
                       (ensureBaseConfiguration (Some pinecone_config))
                       (OpenAIEmbeddings "text-embedding-3-small"))
                "docs" eq_refl) as [Hrefused _]; [discriminate|].
    exact (Hrefused "PINECONE_API_KEY is not set" eq_refl).
Defined.

(** A goal whose premise says that a computation which threw has returned. *)
Ltac thrown :=
  unfold throw, bind; cbn;
  let Hbad := fresh "Hbad" in
  intros Hbad; injection Hbad as _ Hbad; discriminate Hbad.

(** X9. [makeRetriever] succeeds only when everything it needs is there:
    the embeddings were built, the retriever provider is one of the four
    declared values, every environment variable that provider requires is set
    and non-empty, and, for Pinecone, the index lookup is not refused.  Where
    no library call throws, these conditions are also sufficient. *)
Theorem makeRetriever_succeeds_iff (w : World) (config : RunnableConfig) :
  let configuration := ensureBaseConfiguration (Some config) in
  let provider := retrieverProvider configuration in
  ((exists t retriever, makeRetriever w config = (t, inr retriever)) ->
   exists embeddings,
     makeTextEmbeddings w (embeddingModel configuration) = inr embeddings
     /\ enumerated_provider provider
     /\ (forall name, name ∈ required_credentials provider ->
                      present w name)
     /\ (provider = "pinecone" ->
         forall index,
           env w !! "PINECONE_INDEX_NAME" = Some index ->
           pinecone_refuses w embeddings index = None))
  /\ (libraries_cooperate w ->
      (exists embeddings,
          makeTextEmbeddings w (embeddingModel configuration) = inr embeddings
          /\ enumerated_provider provider
          /\ (forall name, name ∈ required_credentials provider ->
                           present w name)
          /\ (provider = "pinecone" ->
              forall index,
                env w !! "PINECONE_INDEX_NAME" = Some index ->
                pinecone_refuses w embeddings index = None)) ->
      exists t retriever, makeRetriever w config = (t, inr retriever)).
Proof.
  cbv zeta. rewrite makeRetriever_unfold. cbv zeta.
  set (configuration := ensureBaseConfiguration (Some config)).
  destruct (makeTextEmbeddings w (embeddingModel configuration))
    as [e|embeddings].
  { split; [intros (t & r & H); discriminate
           | intros _ (emb & H & _); discriminate]. }
  unfold enumerated_provider, required_credentials, makeElasticRetriever,
    makePineconeRetriever, makeMongoDBRetriever, fromExistingIndex.
  generalize (retrieverProvider configuration). intros provider.
  destruct (String.eqb_spec provider "elastic") as [Heq|Hne1];
    [subst provider
    |destruct (String.eqb_spec provider "elastic-local") as [Heq|Hne2];
      [subst provider
      |destruct (String.eqb_spec provider "pinecone") as [Heq|Hne3];
        [subst provider
        |destruct (String.eqb_spec provider "mongodb") as [Heq|Hne4];
          [subst provider|]]]];
    cbn [String.eqb Ascii.eqb Bool.eqb].
  - (* elastic *)
    split.
    + intros (t & r & H). revert H.
      destruct (js_not (env w !! "ELASTICSEARCH_URL")) eqn:Hurl;
        [thrown|].
      destruct (js_not (env w !! "ELASTICSEARCH_API_KEY")) eqn:Hkey;
        [thrown|].
      intros _. exists embeddings. split; [reflexivity|].
      split; [now left|]. split; [|discriminate].
      intros name Hin.
      apply elem_of_cons in Hin as [->|Hin]; [now apply present_js_not|].
      apply elem_of_cons in Hin as [->|Hin]; [now apply present_js_not|].
      now apply elem_of_nil in Hin.
    + intros Hlib (emb & [= <-] & _ & Hcred & _).
      rewrite (proj1 (present_js_not w "ELASTICSEARCH_URL"))
        by (apply Hcred; repeat constructor).
      rewrite (proj1 (present_js_not w "ELASTICSEARCH_API_KEY"))
        by (apply Hcred; repeat constructor).
      rewrite bind_ret, !bind_construct, !Hlib.
      unfold construct, construct_sync, lift. rewrite Hlib. eauto.
  - (* elastic-local *)
    split.
    + intros (t & r & H). revert H.
      destruct (js_not (env w !! "ELASTICSEARCH_URL")) eqn:Hurl;
        [thrown|].
      destruct (js_not (env w !! "ELASTICSEARCH_USER")) eqn:Huser;
        [thrown|].
      destruct (js_not (env w !! "ELASTICSEARCH_PASSWORD")) eqn:Hpw;
        [thrown|].
      intros _. exists embeddings. split; [reflexivity|].
      split; [now right; left|]. split; [|discriminate].
      intros name Hin.
      apply elem_of_cons in Hin as [->|Hin]; [now apply present_js_not|].
      apply elem_of_cons in Hin as [->|Hin]; [now apply present_js_not|].
      apply elem_of_cons in Hin as [->|Hin]; [now apply present_js_not|].
      now apply elem_of_nil in Hin.
    + intros Hlib (emb & [= <-] & _ & Hcred & _).
      rewrite (proj1 (present_js_not w "ELASTICSEARCH_URL"))
        by (apply Hcred; repeat constructor).
      rewrite (proj1 (present_js_not w "ELASTICSEARCH_USER"))
        by (apply Hcred; repeat constructor).
      rewrite (proj1 (present_js_not w "ELASTICSEARCH_PASSWORD"))
        by (apply Hcred; repeat constructor).
      cbn [orb]. rewrite bind_ret, !bind_construct, !Hlib.
      unfold construct, construct_sync, lift. rewrite Hlib. eauto.
  - (* pinecone *)
    split.
    + intros (t & r & H). revert H.
      destruct (js_not (env w !! "PINECONE_INDEX_NAME")) eqn:Hidx;
        [thrown|].
      intros H. exists embeddings. split; [reflexivity|].
      split; [now right; right; left|].
      split.
      * intros name Hin.
        apply elem_of_cons in Hin as [->|Hin]; [now apply present_js_not|].
        now apply elem_of_nil in Hin.
      * intros _ index Hindex. rewrite Hindex in H.
        change (narrowed (Some index)) with index in H.
        rewrite !bind_construct in H.
        destruct (library_refuses w NewPineconeClient); [discriminate H|].
        destruct (library_refuses w (PineconeIndex index));
          [discriminate H|].
        destruct (pinecone_refuses w embeddings index); [|reflexivity].
        unfold throw in H. cbn in H. discriminate H.
    + intros Hlib (emb & [= <-] & _ & Hcred & Hlookup).
      assert (Hp : present w "PINECONE_INDEX_NAME")
        by (apply Hcred; repeat constructor).
      rewrite (proj1 (present_js_not w "PINECONE_INDEX_NAME") Hp).
      destruct Hp as (index & Hindex & _). rewrite Hindex.
      change (narrowed (Some index)) with index.
      rewrite !bind_construct, !Hlib.
      rewrite (Hlookup eq_refl index Hindex). unfold await.
      rewrite bind_value. unfold construct, construct_sync, lift.
      rewrite Hlib. eauto.
  - (* mongodb *)
    split.
    + intros (t & r & H). revert H.
      destruct (js_not (env w !! "MONGODB_URI")) eqn:Huri;
        [thrown|].
      intros _. exists embeddings. split; [reflexivity|].
      split; [now right; right; right|]. split; [|discriminate].
      intros name Hin.
      apply elem_of_cons in Hin as [->|Hin]; [now apply present_js_not|].
      now apply elem_of_nil in Hin.
    + intros Hlib (emb & [= <-] & _ & Hcred & _).
      rewrite (proj1 (present_js_not w "MONGODB_URI"))
        by (apply Hcred; repeat constructor).
      cbv zeta. rewrite !bind_construct, !Hlib.
      unfold construct, construct_sync, lift. rewrite Hlib. eauto.
  - (* any other provider *)
    split; [intros (t & r & H); discriminate|].
    intros _ (emb & _ & [?|[?|[?|?]]] & _); contradiction.
Qed.

(** Worlds whose libraries behave alike build the same embeddings. *)
Lemma makeTextEmbeddings_same_library (w w' : World) (modelName : string) :
  (forall call, library_refuses w call = library_refuses w' call) ->
  makeTextEmbeddings w modelName = makeTextEmbeddings w' modelName.
Proof.
  intros Hlib. unfold makeTextEmbeddings, construct_sync.
  destruct (indexOf modelName "/" =? -1);
    repeat match goal with
           | |- context [String.eqb ?a ?b] => destruct (String.eqb a b)
           end; now rewrite ?Hlib.
Qed.

(** Rewrites the library calls of one world into those of another that
    refuses the same calls. *)
Ltac same_library Hlib :=
  rewrite ?bind_ret, ?bind_construct;
  unfold construct, construct_sync, lift;
  rewrite ?Hlib.

(** X10. The code of [makeRetriever] reads the environment only at the
    variables its provider requires: two worlds that agree on those, on what
    Pinecone refuses and on which library calls throw give the same result,
    whatever else differs between them (the API key under ["elastic-local"],
    user and password under ["elastic"], the files, the store).  What the
    libraries read of the environment themselves, such as their API keys,
    reaches the result only through the calls they refuse. *)
Theorem makeRetriever_reads_only_required (w w' : World)
    (config : RunnableConfig) :
  let provider := retrieverProvider (ensureBaseConfiguration (Some config)) in
  (forall name, name ∈ required_credentials provider ->
                env w !! name = env w' !! name) ->
  (forall embeddings index,
      pinecone_refuses w embeddings index
      = pinecone_refuses w' embeddings index) ->
  (forall call, library_refuses w call = library_refuses w' call) ->
  makeRetriever w config = makeRetriever w' config.
Proof.
  cbv zeta. rewrite !makeRetriever_unfold. cbv zeta.
  set (configuration := ensureBaseConfiguration (Some config)).
  intros Henv Hpine Hlib. revert Henv.
  rewrite (makeTextEmbeddings_same_library w w') by assumption.
  destruct (makeTextEmbeddings w' (embeddingModel configuration))
    as [e|embeddings]; [reflexivity|].
  unfold required_credentials, makeElasticRetriever, makePineconeRetriever,
    makeMongoDBRetriever, fromExistingIndex.
  generalize (retrieverProvider configuration). intros provider Henv.
  destruct (String.eqb_spec provider "elastic") as [Heq|Hne1];
    [subst provider
    |destruct (String.eqb_spec provider "elastic-local") as [Heq|Hne2];
      [subst provider
      |destruct (String.eqb_spec provider "pinecone") as [Heq|Hne3];
        [subst provider
        |destruct (String.eqb_spec provider "mongodb") as [Heq|Hne4];
          [subst provider|]]]];
    cbn [String.eqb Ascii.eqb Bool.eqb] in Henv |- *;
    try reflexivity.
  - rewrite (Henv "ELASTICSEARCH_URL") by repeat constructor.
    rewrite (Henv "ELASTICSEARCH_API_KEY") by repeat constructor.
    destruct (js_not (env w' !! "ELASTICSEARCH_URL")); [reflexivity|].
    destruct (js_not (env w' !! "ELASTICSEARCH_API_KEY")); [reflexivity|].
    now same_library Hlib.
  - rewrite (Henv "ELASTICSEARCH_URL") by repeat constructor.
    rewrite (Henv "ELASTICSEARCH_USER") by repeat constructor.
    rewrite (Henv "ELASTICSEARCH_PASSWORD") by repeat constructor.
    destruct (js_not (env w' !! "ELASTICSEARCH_URL")); [reflexivity|].
    destruct (js_not (env w' !! "ELASTICSEARCH_USER")
              || js_not (env w' !! "ELASTICSEARCH_PASSWORD"));
      [reflexivity|].
    now same_library Hlib.
  - rewrite (Henv "PINECONE_INDEX_NAME") by repeat constructor.
    destruct (js_not (env w' !! "PINECONE_INDEX_NAME")); [reflexivity|].
    same_library Hlib. rewrite Hpine.
    destruct (library_refuses w' NewPineconeClient); [reflexivity|].
    destruct (library_refuses w' (PineconeIndex _)); [reflexivity|].
    destruct (pinecone_refuses w' embeddings _); [reflexivity|].
    unfold await. rewrite !bind_value. now rewrite Hlib.
  - rewrite (Henv "MONGODB_URI") by repeat constructor.
    destruct (js_not (env w' !! "MONGODB_URI")); [reflexivity|].
    cbv zeta. now same_library Hlib.
Qed.

Lemma unset_lookup (name key : string) (w : World) :
  env (unset name w) !! key
  = if decide (name = key) then None else env w !! key.
Proof. unfold unset. cbn [env]. apply lookup_delete. Qed.

(** X11. An environment variable set to the empty string is as good as
    absent: removing it from the environment changes nothing in what
    [makeRetriever] does. *)
Theorem empty_variable_as_absent (w : World) (config : RunnableConfig)
    (name : string) :
  env w !! name = Some "" ->
  makeRetriever (unset name w) config = makeRetriever w config.
Proof.
  intros Hempty. rewrite !makeRetriever_unfold. cbv zeta.
  set (configuration := ensureBaseConfiguration (Some config)).
  rewrite (makeTextEmbeddings_same_library (unset name w) w)
    by reflexivity.
  destruct (makeTextEmbeddings w (embeddingModel configuration))
    as [e|embeddings]; [reflexivity|].
  unfold makeElasticRetriever, makePineconeRetriever, makeMongoDBRetriever,
    fromExistingIndex, construct, construct_sync.
  rewrite !unset_lookup.
  change (pinecone_refuses (unset name w)) with (pinecone_refuses w).
  change (library_refuses (unset name w)) with (library_refuses w).
  repeat case_decide; subst; rewrite ?Hempty; try discriminate; reflexivity.
Qed.

(** X12. An unsupported embedding provider is reported before anything
    else: whatever the retriever provider and the environment are, also when
    the provider is unrecognized or its credentials are missing,
    [makeRetriever] throws the embedding error and has awaited nothing. *)
Theorem makeRetriever_embedding_error_first (w : World)
    (config : RunnableConfig) (provider model : string) :
  embeddingModel (ensureBaseConfiguration (Some config))
  = provider +:+ "/" +:+ model ->
  occurs "/" provider = false ->
  ~ supported_provider provider ->
  makeRetriever w config
  = ([], inl (Error ("Unsupported embedding provider: " +:+ provider))).
Proof.
  intros Hmodel Hno Hunsupported.
  rewrite makeRetriever_unfold. cbv zeta.
  rewrite Hmodel, makeTextEmbeddings_slash by assumption.
  unfold embeddings_case, supported_provider in *.
  destruct (String.eqb_spec provider "gemini"); [tauto|].
  destruct (String.eqb_spec provider "openai"); [tauto|].
  destruct (String.eqb_spec provider "cohere"); [tauto|].
  reflexivity.
Qed.
Lemma makeRetriever_succeeds_iff_witness :
  (exists t retriever,
      makeRetriever refusing_world pinecone_config = (t, inr retriever))
  /\ present refusing_world "PINECONE_INDEX_NAME".
Proof.
  assert (Hmade : exists t retriever,
             makeRetriever refusing_world pinecone_config = (t, inr retriever)).
  { apply (proj2 (makeRetriever_succeeds_iff refusing_world pinecone_config)).
    - intros call. reflexivity.
    - exists (OpenAIEmbeddings "text-embedding-3-small").
      split; [reflexivity|]. split; [right; right; left; reflexivity|].
      split; [|reflexivity].
      intros name Hin. apply list_elem_of_singleton in Hin as ->.
      exists "docs". split; [reflexivity | discriminate]. }
  split; [exact Hmade|].
  destruct (proj1 (makeRetriever_succeeds_iff refusing_world pinecone_config)
              Hmade)
    as (embeddings & _ & _ & Hcred & _).
  apply Hcred. apply list_elem_of_here.
Defined.

Lemma makeRetriever_reads_only_required_witness :
  makeRetriever local_world default_config
  = makeRetriever keyed_world default_config.
Proof.
  apply makeRetriever_reads_only_required.
  - intros name Hin.
    apply elem_of_cons in Hin as [->|Hin]; [reflexivity|].
    apply elem_of_cons in Hin as [->|Hin]; [reflexivity|].
    apply elem_of_cons in Hin as [->|Hin]; [reflexivity|].
    now apply elem_of_nil in Hin.
  - reflexivity.
  - reflexivity.
Defined.

Lemma empty_variable_as_absent_witness :
  env blank_url_world !! "ELASTICSEARCH_URL" = Some ""
  /\ makeRetriever blank_url_world default_config
     = ([], inl (Error "ELASTICSEARCH_URL environment variable is not defined")).
Proof.
  split; [reflexivity|].
  rewrite <- (empty_variable_as_absent
                blank_url_world default_config "ELASTICSEARCH_URL" eq_refl).
  reflexivity.
Defined.

Lemma makeRetriever_embedding_error_first_witness :
  makeRetriever bare_world voyage_config
  = ([], inl (Error "Unsupported embedding provider: voyage")).
Proof.
  apply (makeRetriever_embedding_error_first
           bare_world voyage_config "voyage" "voyage-3");
    [reflexivity | reflexivity |].
  intros [H|[H|H]]; discriminate H.
Defined.

(** The traces [makeRetriever] can leave. *)
Lemma makeRetriever_shape (w : World) (config : RunnableConfig) :
  (exists made, makeRetriever w config = ([], made))
  \/ (exists embeddings index,
        retrieverProvider (ensureBaseConfiguration (Some config)) = "pinecone"
        /\ env w !! "PINECONE_INDEX_NAME" = Some index /\ index <> ""
        /\ ((exists made,
                makeRetriever w config
                = ([Started (FromExistingIndex embeddings index);
                    Fulfilled (FromExistingIndex embeddings index)],
                   made))
            \/ (exists e,
                   makeRetriever w config
                   = ([Started (FromExistingIndex embeddings index);
                       Failed (FromExistingIndex embeddings index)],
                      inl e)))).
Proof.
  rewrite makeRetriever_unfold. cbv zeta.
  set (configuration := ensureBaseConfiguration (Some config)).
  destruct (makeTextEmbeddings w (embeddingModel configuration))
    as [e|embeddings]; [left; eauto|].
  pose proof (makeElasticRetriever_cases w configuration embeddings) as He.
  pose proof (makeMongoDBRetriever_cases w configuration embeddings) as Hm.
  destruct (String.eqb_spec (retrieverProvider configuration) "elastic");
    [left; destruct He as [(msg & -> & _)
                          | [(node & auth & idx & ->) | (r & ->)]]; eauto|].
  destruct (String.eqb_spec (retrieverProvider configuration) "elastic-local");
    [left; destruct He as [(msg & -> & _)
                          | [(node & auth & idx & ->) | (r & ->)]]; eauto|].
  destruct (String.eqb_spec (retrieverProvider configuration) "pinecone")
    as [Hp|_].
  - unfold makePineconeRetriever, fromExistingIndex.
    destruct (js_not (env w !! "PINECONE_INDEX_NAME")) eqn:Hidx;
      [left; eauto|].
    apply js_not_false in Hidx as (index & Hindex & Hne).
    rewrite Hindex. change (narrowed (Some index)) with index.
    rewrite !bind_construct.
    destruct (library_refuses w NewPineconeClient); [left; eauto|].
    destruct (library_refuses w (PineconeIndex index)); [left; eauto|].
    right. exists embeddings, index.
    split; [assumption|]. split; [reflexivity|]. split; [assumption|].
    destruct (pinecone_refuses w embeddings index); [right; eauto|].
    left. unfold await. rewrite bind_value.
    destruct (construct w _ _) as [t made] eqn:Hbuilt.
    unfold construct, lift in Hbuilt. injection Hbuilt as <- <-. eauto.
  - destruct (String.eqb_spec (retrieverProvider configuration) "mongodb");
      left; [destruct Hm as [-> | [(u & d & c & x & k & i & ->) | (r & ->)]]|];
      eauto.
Qed.

(** What [makePineconeRetriever] awaits once the index name is there. *)
Lemma makePineconeRetriever_trace (w : World)
    (configuration : BaseConfiguration) (embeddings : Embeddings)
    (index : string) :
  env w !! "PINECONE_INDEX_NAME" = Some index -> index <> "" ->
  trace (makePineconeRetriever w configuration embeddings)
  = match first_refusal w (pinecone_calls index) with
    | Some _ => []
    | None =>
        [Started (FromExistingIndex embeddings index);
         match pinecone_refuses w embeddings index with
         | Some _ => Failed (FromExistingIndex embeddings index)
         | None => Fulfilled (FromExistingIndex embeddings index)
         end]
    end.
Proof.
  intros Hindex Hne. unfold makePineconeRetriever, fromExistingIndex.
  assert (Hnot : js_not (env w !! "PINECONE_INDEX_NAME") = false)
    by (apply js_not_false; eauto).
  rewrite Hnot, Hindex. change (narrowed (Some index)) with index.
  rewrite !bind_construct. unfold pinecone_calls, first_refusal.
  destruct (library_refuses w NewPineconeClient); [reflexivity|].
  destruct (library_refuses w (PineconeIndex index)); [reflexivity|].
  destruct (pinecone_refuses w embeddings index); [reflexivity|].
  unfold await. rewrite bind_value.
  destruct (construct w _ _) as [t made] eqn:Hbuilt.
  unfold construct, lift in Hbuilt. now injection Hbuilt as <- <-.
Qed.

(** Only the Pinecone constructor, on embeddings that were built, leaves a
    trace. *)
Lemma makeRetriever_trace (w : World) (config : RunnableConfig) :
  let configuration := ensureBaseConfiguration (Some config) in
  trace (makeRetriever w config)
  = match makeTextEmbeddings w (embeddingModel configuration) with
    | inl _ => []
    | inr embeddings =>
        if String.eqb (retrieverProvider configuration) "pinecone" then
          trace (makePineconeRetriever w configuration embeddings)
        else []
    end.
Proof.
  cbv zeta. rewrite makeRetriever_unfold. cbv zeta.
  set (configuration := ensureBaseConfiguration (Some config)).
  destruct (makeTextEmbeddings w (embeddingModel configuration))
    as [e|embeddings]; [reflexivity|].
  pose proof (makeElasticRetriever_cases w configuration embeddings) as He.
  pose proof (makeMongoDBRetriever_cases w configuration embeddings) as Hm.
  destruct (String.eqb_spec (retrieverProvider configuration) "elastic")
    as [Heq|_].
  { rewrite Heq. cbn [String.eqb Ascii.eqb Bool.eqb].
    now destruct He as [(msg & -> & _)
                       | [(node & auth & idx & ->) | (r & ->)]]. }
  destruct (String.eqb_spec (retrieverProvider configuration) "elastic-local")
    as [Heq|_].
  { rewrite Heq. cbn [String.eqb Ascii.eqb Bool.eqb].
    now destruct He as [(msg & -> & _)
                       | [(node & auth & idx & ->) | (r & ->)]]. }
  destruct (String.eqb (retrieverProvider configuration) "pinecone");
    [reflexivity|].
  destruct (String.eqb (retrieverProvider configuration) "mongodb");
    [|reflexivity].
  now destruct Hm as [-> | [(u & d & c & x & k & i & ->) | (r & ->)]].
Qed.

(** X13. [makeRetriever] awaits something exactly when the embeddings were
    built, the provider is ["pinecone"], its index name is set and not
    empty, and the Pinecone client and its index handle were built: then its
    trace is one index lookup, started and settled.  Under every other
    provider, and whenever it fails before the lookup, its trace is empty. *)
Theorem makeRetriever_awaits_only_pinecone (w : World)
    (config : RunnableConfig) :
  let configuration := ensureBaseConfiguration (Some config) in
  let awaits embeddings index :=
    makeTextEmbeddings w (embeddingModel configuration) = inr embeddings
    /\ retrieverProvider configuration = "pinecone"
    /\ env w !! "PINECONE_INDEX_NAME" = Some index /\ index <> ""
    /\ first_refusal w (pinecone_calls index) = None in
  (trace (makeRetriever w config) <> []
   <-> exists embeddings index, awaits embeddings index)
  /\ (forall embeddings index,
        awaits embeddings index ->
        trace (makeRetriever w config)
        = [Started (FromExistingIndex embeddings index);
           match pinecone_refuses w embeddings index with
           | Some _ => Failed (FromExistingIndex embeddings index)
           | None => Fulfilled (FromExistingIndex embeddings index)
           end]).
Proof.
  cbv zeta. rewrite makeRetriever_trace. cbv zeta.
  set (configuration := ensureBaseConfiguration (Some config)).
  assert (Hrun : forall embeddings index,
             makeTextEmbeddings w (embeddingModel configuration)
             = inr embeddings
             /\ retrieverProvider configuration = "pinecone"
             /\ env w !! "PINECONE_INDEX_NAME" = Some index /\ index <> ""
             /\ first_refusal w (pinecone_calls index) = None ->
             match makeTextEmbeddings w (embeddingModel configuration) with
             | inl _ => []
             | inr embeddings =>
                 if String.eqb (retrieverProvider configuration) "pinecone"
                 then trace (makePineconeRetriever w configuration embeddings)
                 else []
             end
             = [Started (FromExistingIndex embeddings index);
                match pinecone_refuses w embeddings index with
                | Some _ => Failed (FromExistingIndex embeddings index)
                | None => Fulfilled (FromExistingIndex embeddings index)
                end]).
  { intros embeddings index (-> & -> & Hindex & Hne & Hcalls).
    cbn [String.eqb Ascii.eqb Bool.eqb].
    rewrite (makePineconeRetriever_trace w configuration embeddings index)
      by assumption.
    now rewrite Hcalls. }
  split; [|exact Hrun]. split.
  - destruct (makeTextEmbeddings w (embeddingModel configuration))
      as [e|embeddings]; [contradiction|].
    destruct (String.eqb_spec (retrieverProvider configuration) "pinecone")
      as [Hp|_]; [|contradiction].
    destruct (js_not (env w !! "PINECONE_INDEX_NAME")) eqn:Hidx.
    { unfold makePineconeRetriever. rewrite Hidx. contradiction. }
    apply js_not_false in Hidx as (index & Hindex & Hne).
    rewrite (makePineconeRetriever_trace w configuration embeddings index)
      by assumption.
    destruct (first_refusal w (pinecone_calls index)) eqn:Hcalls;
      [contradiction|].
    intros _. exists embeddings, index. now repeat split.
  - intros (embeddings & index & Hawaits).
    rewrite (Hrun embeddings index Hawaits). discriminate.
Qed.

Lemma makeRetriever_awaits_only_pinecone_witness :
  trace (makeRetriever refusing_world pinecone_config)
  = [Started (FromExistingIndex (OpenAIEmbeddings "text-embedding-3-small")
                "docs");
     Fulfilled (FromExistingIndex (OpenAIEmbeddings "text-embedding-3-small")
                  "docs")]
  /\ trace (makeRetriever refusing_world pinecone_config) <> [].
Proof.
  split.
  - apply (proj2 (makeRetriever_awaits_only_pinecone
                    refusing_world pinecone_config)
             (OpenAIEmbeddings "text-embedding-3-small") "docs").
    repeat split. discriminate.
  - apply (proj1 (makeRetriever_awaits_only_pinecone
                    refusing_world pinecone_config)).
    exists (OpenAIEmbeddings "text-embedding-3-small"), "docs".
    repeat split. discriminate.
Defined.

(** ** The indexing node, further *)

Lemma eff_pair {A} (m : Eff A) : m = ([] ++ trace m, outcome m).
Proof. now destruct m. Qed.

Lemma makeRetriever_same_environment (w w' : World) (config : RunnableConfig) :
  env w = env w' -> pinecone_refuses w = pinecone_refuses w' ->
  library_refuses w = library_refuses w' ->
  makeRetriever w config = makeRetriever w' config.
Proof.
  intros Henv Hpine Hlib. unfold makeRetriever, makeTextEmbeddings,
    makeElasticRetriever, makePineconeRetriever, makeMongoDBRetriever,
    fromExistingIndex, construct, construct_sync.
  now rewrite Henv, Hpine, Hlib.
Qed.

Lemma submit_succeeds (w : World) (config : RunnableConfig)
    (batch : list Document) (update : IndexUpdate) :
  outcome (submit w config batch) = inr update
  <-> update = delete_docs
      /\ exists t retriever,
          makeRetriever w config = (t, inr retriever)
          /\ store_refuses w retriever batch = None.
Proof.
  destruct (submit_cases w config batch) as (tail & _ & Hend).
  destruct (makeRetriever w config) as [t made] eqn:Hmk.
  cbn [outcome snd] in Hend. split.
  - intros Hout. rewrite Hout in Hend.
    inversion Hend; subst. split; [reflexivity|]. eauto.
  - intros (-> & t' & r & [= -> ->] & Hack).
    inversion Hend as [| r' reason Hrefused | r' Haccepted]; subst;
      congruence.
Qed.

(** The runs [submit] can make. *)
Lemma submit_shape (w : World) (config : RunnableConfig)
    (batch : list Document) :
  exists pre,
    (pre = []
     \/ exists embeddings index,
         pre = [Started (FromExistingIndex embeddings index);
                Fulfilled (FromExistingIndex embeddings index)])
    /\ ((exists e, submit w config batch = (pre, inl e))
        \/ (exists embeddings index e,
               pre = []
               /\ submit w config batch
                  = ([Started (FromExistingIndex embeddings index);
                      Failed (FromExistingIndex embeddings index)], inl e))
        \/ (exists retriever reason,
               submit w config batch
               = (pre ++ [Started (AddDocuments retriever batch);
                          Failed (AddDocuments retriever batch)],
                  inl (Rejected "store" reason)))
        \/ (exists retriever,
               submit w config batch
               = (pre ++ [Started (AddDocuments retriever batch);
                          Fulfilled (AddDocuments retriever batch)],
                  inr delete_docs))).
Proof.
  unfold submit, addDocuments.
  destruct (makeRetriever_shape w config)
    as [([e|r] & ->)
       | (emb & index & _ & _ & _ & [([e|r] & ->) | (e & ->)])].
  - exists []. split; [now left|]. left. eauto.
  - exists []. split; [now left|]. rewrite bind_value.
    destruct (store_refuses w r batch) as [reason|];
      right; right; [left | right]; eauto.
  - exists [Started (FromExistingIndex emb index);
            Fulfilled (FromExistingIndex emb index)].
    split; [right; eauto|]. left. eauto.
  - exists [Started (FromExistingIndex emb index);
            Fulfilled (FromExistingIndex emb index)].
    split; [right; eauto|]. rewrite bind_value.
    destruct (store_refuses w r batch) as [reason|];
      right; right; [left | right]; eauto.
  - exists []. split; [now left|]. right. left. exists emb, index, e.
    now split.
Qed.
(** X14. With a batch in the state, [indexDocs] depends on the environment,
    on the libraries, on Pinecone and on the store only: the file system, the
    parser, the reducer and the index configuration may change at will
    without changing what the run does or returns. *)
Theorem indexDocs_supplied_frame
    (JSON_parse JSON_parse' : string -> option JsVal)
    (reduceDocs reduceDocs' : list Document -> JsVal -> list Document)
    (ensureIndexConfiguration ensureIndexConfiguration'
       : RunnableConfig -> IndexConfiguration)
    (w w' : World) (state : IndexState) (config : RunnableConfig) :
  docs state <> [] ->
  env w = env w' ->
  library_refuses w = library_refuses w' ->
  pinecone_refuses w = pinecone_refuses w' ->
  store_refuses w = store_refuses w' ->
  indexDocs JSON_parse reduceDocs ensureIndexConfiguration
            w state (Some config)
  = indexDocs JSON_parse' reduceDocs' ensureIndexConfiguration'
              w' state (Some config).
Proof.
  intros Hne Henv Hlib Hpine Hstore.
  rewrite !indexDocs_supplied by assumption.
  unfold submit, addDocuments.
  rewrite (makeRetriever_same_environment w w' config Henv Hpine Hlib).
  now rewrite Hstore.
Qed.

Lemma indexDocs_supplied_frame_witness :
  indexDocs parse_sample reduce_sample index_configuration_sample
            bare_world one_doc_state (Some default_config)
  = indexDocs (fun _ => None) (fun existing _ => existing)
              (fun config =>
                 {| indexBase := ensureBaseConfiguration (Some config);
                    docsFile := "elsewhere.json" |})
              fileless_world one_doc_state (Some default_config).
Proof.
  apply indexDocs_supplied_frame; [discriminate | reflexivity ..].
Defined.

Section IndexGraphFurther.

Variable JSON_parse : string -> option JsVal.
Variable reduceDocs : list Document -> JsVal -> list Document.
Variable ensureIndexConfiguration : RunnableConfig -> IndexConfiguration.

Abbreviation index' :=
  (indexDocs JSON_parse reduceDocs ensureIndexConfiguration).

Abbreviation settles_on :=
  (batch_to_index JSON_parse reduceDocs ensureIndexConfiguration).

(** The run on the batch the node settled on. *)
Lemma indexDocs_settled (w : World) (state : IndexState)
    (config : RunnableConfig) (batch : list Document) :
  settles_on w state config batch ->
  exists pre,
    index' w state (Some config)
    = (pre ++ trace (submit w config batch),
       outcome (submit w config batch))
    /\ (pre = []
        \/ exists raw,
            pre = [Started (ReadFile (docsFile (ensureIndexConfiguration config))
                                     "utf-8");
                   Fulfilled (ReadFile (docsFile (ensureIndexConfiguration config))
                                       "utf-8");
                   ReduceDocs [] raw]).
Proof.
  intros [[Hne ->] | (Hemp & content & raw & Hfile & Hparse & ->)].
  - exists []. rewrite indexDocs_supplied by assumption.
    split; [apply eff_pair | now left].
  - eexists. rewrite (indexDocs_fallback _ _ _ w state config Hemp).
    rewrite Hfile, Hparse. split; [reflexivity | eauto].
Qed.

(** X15. [indexDocs] returns exactly when a configuration is given, there is
    a batch to index (the one in the state or, when that is empty, a fallback
    file that exists and parses), the retriever can be built and the store
    accepts the batch. *)
Theorem indexDocs_succeeds_iff (w : World) (state : IndexState)
    (config : option RunnableConfig) :
  (exists update, outcome (index' w state config) = inr update)
  <-> exists cfg batch t retriever,
        config = Some cfg
        /\ settles_on w state cfg batch
        /\ makeRetriever w cfg = (t, inr retriever)
        /\ store_refuses w retriever batch = None.
Proof.
  split.
  - intros [update Hout]. destruct config as [cfg|]; [|discriminate].
    destruct (docs state) as [|d ds] eqn:Hdocs.
    + rewrite (indexDocs_fallback _ _ _ w state cfg Hdocs) in Hout.
      destruct (files w !! _) as [content|] eqn:Hfile; [|discriminate].
      destruct (JSON_parse content) as [raw|] eqn:Hparse; [|discriminate].
      cbn [outcome snd] in Hout.
      apply submit_succeeds in Hout as (_ & t & r & Hmk & Hack).
      exists cfg, (reduceDocs [] raw), t, r. split; [reflexivity|].
      split; [|now split].
      right. split; [assumption|]. now exists content, raw.
    + rewrite indexDocs_supplied in Hout by congruence.
      apply submit_succeeds in Hout as (_ & t & r & Hmk & Hack).
      exists cfg, (docs state), t, r. split; [reflexivity|].
      split; [|now split]. left. split; [congruence | reflexivity].
  - intros (cfg & batch & t & r & -> & Hbatch & Hmk & Hack).
    exists delete_docs.
    destruct (indexDocs_settled w state cfg batch Hbatch) as (pre & -> & _).
    cbn [outcome snd]. apply submit_succeeds. split; [reflexivity|]. eauto.
Qed.

(** X16. A batch the store refuses makes [indexDocs] fail with the store's
    reason: the run ends on the failed [addDocuments] call and returns no
    update. *)
Theorem indexDocs_store_refusal (w : World) (state : IndexState)
    (config : RunnableConfig) (batch : list Document) (t : list Event)
    (retriever : VectorStoreRetriever) (reason : string) :
  settles_on w state config batch ->
  makeRetriever w config = (t, inr retriever) ->
  store_refuses w retriever batch = Some reason ->
  outcome (index' w state (Some config)) = inl (Rejected "store" reason)
  /\ exists pre,
      trace (index' w state (Some config))
      = pre ++ [Started (AddDocuments retriever batch);
                Failed (AddDocuments retriever batch)].
Proof.
  intros Hbatch Hmk Hrefused.
  destruct (indexDocs_settled w state config batch Hbatch) as (pre & -> & _).
  cbn [trace outcome fst snd].
  unfold submit, addDocuments. rewrite Hmk, bind_value, Hrefused.
  cbn [trace outcome fst snd]. split; [reflexivity|].
  exists (pre ++ t). now rewrite <- List.app_assoc.
Qed.

(** X17. A fallback file that is missing or does not parse ends the run
    before anything else happens: the trace holds the file read and nothing
    more, so no retriever was built and nothing reduced or submitted, and the
    run fails whatever the credentials are. *)
Theorem indexDocs_fallback_failure (w : World) (state : IndexState)
    (config : RunnableConfig) :
  let path := docsFile (ensureIndexConfiguration config) in
  let run := index' w state (Some config) in
  docs state = [] ->
  (files w !! path = None ->
   trace run = [Started (ReadFile path "utf-8"); Failed (ReadFile path "utf-8")]
   /\ exists e, outcome run = inl e)
  /\ (forall content,
        files w !! path = Some content -> JSON_parse content = None ->
        trace run = [Started (ReadFile path "utf-8");
                     Fulfilled (ReadFile path "utf-8")]
        /\ exists e, outcome run = inl e).
Proof.
  cbv zeta. intros Hemp.
  rewrite (indexDocs_fallback _ _ _ w state config Hemp). split.
  - intros ->. split; [reflexivity | eauto].
  - intros content -> ->. split; [reflexivity | eauto].
Qed.

(** X18. Within a run of [indexDocs] awaited operations never overlap and
    nothing follows a failure: every operation is settled right after it is
    started, a failed one ends the trace, and a run whose trace holds a
    failed operation does not return. *)
Theorem indexDocs_sequential (w : World) (state : IndexState)
    (config : option RunnableConfig) :
  sequential (trace (index' w state config))
  /\ (forall op, Failed op ∈ trace (index' w state config) ->
                 exists e, outcome (index' w state config) = inl e).
Proof.
  destruct config as [cfg|];
    [|split; [constructor | intros op Hin; now apply elem_of_nil in Hin]].
  assert (Hsubmit : forall batch pre,
             (pre = [] \/ exists raw path,
                 pre = [Started (ReadFile path "utf-8");
                        Fulfilled (ReadFile path "utf-8"); ReduceDocs [] raw]) ->
             sequential (pre ++ trace (submit w cfg batch))
             /\ (forall op, Failed op ∈ pre ++ trace (submit w cfg batch) ->
                            exists e, outcome (submit w cfg batch) = inl e)).
  { intros batch pre Hpre.
    destruct (submit_shape w cfg batch)
      as (mid & Hmid & [(e & ->) | [(emb & i & e & -> & ->)
                                  | [(r & reason & ->) | (r & ->)]]]);
      cbn [trace outcome fst snd];
      destruct Hpre as [-> | (raw & path & ->)];
      destruct Hmid as [Hmid | (emb' & i' & Hmid)];
      try discriminate Hmid; try subst mid; cbn [app];
      (split; [repeat constructor | intros op Hin; eauto]);
      exfalso;
      repeat match goal with
             | H : _ ∈ _ :: _ |- _ =>
                 apply elem_of_cons in H as [H|H]; [discriminate H|]
             | H : _ ∈ [] |- _ => now apply elem_of_nil in H
             end. }
  destruct (docs state) as [|d ds] eqn:Hdocs.
  - rewrite (indexDocs_fallback _ _ _ w state cfg Hdocs).
    destruct (files w !! _) as [content|];
      [|split; [repeat constructor | eauto]].
    destruct (JSON_parse content) as [raw|];
      [|split; [repeat constructor | intros op Hin; exfalso;
                repeat (apply elem_of_cons in Hin as [Hin|Hin];
                        [discriminate Hin|]);
                now apply elem_of_nil in Hin]].
    cbn [trace outcome fst snd]. apply Hsubmit. right. eauto.
  - rewrite indexDocs_supplied by congruence.
    apply (Hsubmit (docs state) []). now left.
Qed.

(** X19. The steps of a run are taken in one order and each at most once:
    the fallback file is read, its content reduced, the Pinecone index
    looked up, the batch submitted.  What a run does is a part of that list,
    in that order. *)
Theorem indexDocs_step_order (w : World) (state : IndexState)
    (config : option RunnableConfig) :
  sublist (steps (trace (index' w state config))) pipeline.
Proof.
  assert (Hauto : forall l : list nat,
             l ∈ [[]; [0]; [0;1]; [0;1;2]; [0;1;3]; [0;1;2;3];
                  [2]; [3]; [2;3]]%nat ->
             sublist l pipeline).
  { intros l Hin. unfold pipeline.
    repeat (apply elem_of_cons in Hin as [->|Hin];
            [repeat first [apply sublist_nil | apply sublist_skip
                          | apply sublist_cons]|]).
    now apply elem_of_nil in Hin. }
  destruct config as [cfg|]; [|apply sublist_nil_l].
  assert (Hsubmit : forall batch,
             steps (trace (submit w cfg batch)) ∈ [[]; [2]; [3]; [2;3]]%nat).
  { intros batch.
    destruct (submit_shape w cfg batch)
      as (mid & Hmid & [(e & ->) | [(emb & i & e & -> & ->)
                                  | [(r & reason & ->) | (r & ->)]]]);
      cbn [trace fst];
      destruct Hmid as [Hmid | (emb' & i' & Hmid)];
      try discriminate Hmid; try subst mid; cbn;
      repeat first [apply list_elem_of_here | apply list_elem_of_further]. }
  apply Hauto.
  destruct (docs state) as [|d ds] eqn:Hdocs.
  - rewrite (indexDocs_fallback _ _ _ w state cfg Hdocs).
    destruct (files w !! _) as [content|];
      [|cbn; repeat first [apply list_elem_of_here
                          | apply list_elem_of_further]].
    destruct (JSON_parse content) as [raw|];
      [|cbn; repeat first [apply list_elem_of_here
                          | apply list_elem_of_further]].
    cbn [trace fst]. unfold steps. rewrite omap_app.
    fold (steps (trace (submit w cfg (reduceDocs [] raw)))).
    pose proof (Hsubmit (reduceDocs [] raw)) as Hin. cbn.
    repeat (apply elem_of_cons in Hin as [->|Hin];
            [cbn; repeat first [apply list_elem_of_here
                               | apply list_elem_of_further]|]).
    now apply elem_of_nil in Hin.
  - rewrite indexDocs_supplied by congruence.
    pose proof (Hsubmit (docs state)) as Hin.
    repeat (apply elem_of_cons in Hin as [->|Hin];
            [repeat first [apply list_elem_of_here
                          | apply list_elem_of_further]|]).
    now apply elem_of_nil in Hin.
Qed.

End IndexGraphFurther.
Lemma indexDocs_succeeds_iff_witness :
  exists update,
    outcome (index_sample local_world one_doc_state (Some default_config))
    = inr update.
Proof.
  apply (indexDocs_succeeds_iff
           parse_sample reduce_sample index_configuration_sample
           local_world one_doc_state (Some default_config)).
  exists default_config, [a_document], [], local_retriever.
  split; [reflexivity|]. split; [|split; reflexivity].
  left. split; [discriminate | reflexivity].
Defined.

Lemma indexDocs_store_refusal_witness :
  outcome (index_sample refusing_world one_doc_state (Some pinecone_config))
  = inl (Rejected "store" "quota exceeded").
Proof.
  apply (indexDocs_store_refusal
           parse_sample reduce_sample index_configuration_sample
           refusing_world one_doc_state pinecone_config [a_document]
           [Started (FromExistingIndex
                       (OpenAIEmbeddings "text-embedding-3-small") "docs");
            Fulfilled (FromExistingIndex
                         (OpenAIEmbeddings "text-embedding-3-small") "docs")]
           pinecone_retriever "quota exceeded").
  - left. split; [discriminate | reflexivity].
  - reflexivity.
  - reflexivity.
Defined.

Lemma indexDocs_fallback_failure_witness :
  trace (index_sample fileless_world empty_state (Some default_config))
  = [Started (ReadFile "sample_docs.json" "utf-8");
     Failed (ReadFile "sample_docs.json" "utf-8")].
Proof.
  destruct (indexDocs_fallback_failure
              parse_sample reduce_sample index_configuration_sample
              fileless_world empty_state default_config eq_refl)
    as [Hmissing _].
  exact (proj1 (Hmissing eq_refl)).
Defined.

Lemma indexDocs_sequential_witness :
  Failed (AddDocuments pinecone_retriever [a_document])
  ∈ trace (index_sample refusing_world one_doc_state (Some pinecone_config))
  /\ exists e,
      outcome (index_sample refusing_world one_doc_state (Some pinecone_config))
      = inl e.
Proof.
  assert (Hin : Failed (AddDocuments pinecone_retriever [a_document])
                ∈ trace (index_sample refusing_world one_doc_state
                           (Some pinecone_config)))
    by (do 3 apply list_elem_of_further; apply list_elem_of_here).
  split; [exact Hin|].
  exact (proj2 (indexDocs_sequential
                  parse_sample reduce_sample index_configuration_sample
                  refusing_world one_doc_state (Some pinecone_config))
           _ Hin).
Defined.
(** ** How the pieces compose *)

(** X20. Retriever construction never looks at the agent's own options: two
    configurations that agree on [embeddingModel], [retrieverProvider] and
    [searchKwargs] have the same base configuration and give the same
    retriever in every world, whatever their models and prompts are. *)
Theorem makeRetriever_ignores_agent_options (c c' : Configurable) :
  cfg_embeddingModel c = cfg_embeddingModel c' ->
  cfg_retrieverProvider c = cfg_retrieverProvider c' ->
  cfg_searchKwargs c = cfg_searchKwargs c' ->
  ensureBaseConfiguration (Some {| configurable := Some c |})
  = ensureBaseConfiguration (Some {| configurable := Some c' |})
  /\ forall w,
      makeRetriever w {| configurable := Some c |}
      = makeRetriever w {| configurable := Some c' |}.
Proof.
  intros Hmodel Hprovider Hkw.
  assert (Hbase : ensureBaseConfiguration (Some {| configurable := Some c |})
                  = ensureBaseConfiguration
                      (Some {| configurable := Some c' |})).
  { unfold ensureBaseConfiguration. rewrite !configurable_of_present.
    now rewrite Hmodel, Hprovider, Hkw. }
  split; [exact Hbase|].
  intros w. rewrite !makeRetriever_unfold. cbv zeta. now rewrite Hbase.
Qed.

Lemma makeRetriever_ignores_agent_options_witness :
  makeRetriever refusing_world {| configurable := Some tuned_configurable |}
  = makeRetriever refusing_world pinecone_config.
Proof.
  apply makeRetriever_ignores_agent_options; reflexivity.
Defined.

(** X21. The retriever [makeRetriever] returns embeds with the configured
    model: whichever backend was selected, the embeddings inside its vector
    store are the ones [makeTextEmbeddings] gives for the configuration's
    [embeddingModel]. *)
Theorem makeRetriever_uses_configured_embeddings (w : World)
    (config : RunnableConfig) (t : list Event)
    (retriever : VectorStoreRetriever) :
  makeRetriever w config = (t, inr retriever) ->
  makeTextEmbeddings w (embeddingModel (ensureBaseConfiguration (Some config)))
  = inr (embeddings_of (vectorStore retriever)).
Proof.
  rewrite makeRetriever_unfold. cbv zeta.
  set (configuration := ensureBaseConfiguration (Some config)).
  destruct (makeTextEmbeddings w (embeddingModel configuration))
    as [e|embeddings]; [discriminate|].
  pose proof (makeElasticRetriever_cases w configuration embeddings) as He.
  pose proof (makePineconeRetriever_cases w configuration embeddings) as Hp.
  pose proof (makeMongoDBRetriever_cases w configuration embeddings) as Hm.
  repeat match goal with
         | |- context [String.eqb ?a ?b] => destruct (String.eqb a b)
         end.
  - destruct He as [(msg & -> & _) | [(node & auth & idx & ->) | (r & ->)]];
      intros H; [discriminate | now injection H as <- <- | discriminate].
  - destruct He as [(msg & -> & _) | [(node & auth & idx & ->) | (r & ->)]];
      intros H; [discriminate | now injection H as <- <- | discriminate].
  - destruct Hp as [-> | [(idx & reason & ->)
                         | [(idx & ->) | [(r & ->) | (idx & r & ->)]]]];
      intros H; try discriminate H. now injection H as <- <-.
  - destruct Hm as [-> | [(u & d & c & x & k & idx & ->) | (r & ->)]];
      intros H; [discriminate | now injection H as <- <- | discriminate].
  - discriminate.
Qed.

Lemma makeRetriever_uses_configured_embeddings_witness :
  makeTextEmbeddings refusing_world "openai/text-embedding-3-small"
  = inr (embeddings_of (vectorStore pinecone_retriever)).
Proof.
  exact (makeRetriever_uses_configured_embeddings
           refusing_world pinecone_config
           [Started (FromExistingIndex
                       (OpenAIEmbeddings "text-embedding-3-small") "docs");
            Fulfilled (FromExistingIndex
                         (OpenAIEmbeddings "text-embedding-3-small") "docs")]
           pinecone_retriever eq_refl).
Defined.

Lemma submit_target (w : World) (config : RunnableConfig)
    (batch b : list Document) (r : VectorStoreRetriever) :
  Started (AddDocuments r b) ∈ trace (submit w config batch) ->
  b = batch /\ exists t, makeRetriever w config = (t, inr r).
Proof.
  destruct (submit_cases w config batch) as (tail & Heq & Hend).
  rewrite Heq. cbn [trace fst]. intros Hin.
  apply (pinecone_events_silent _ tail (makeRetriever_events w config)) in Hin.
  destruct (makeRetriever w config) as [t made]. cbn [outcome snd] in Hend.
  inversion Hend as [e | r' reason Hrefused | r' Haccepted]; subst;
    repeat match goal with
           | H : _ ∈ _ :: _ |- _ => apply elem_of_cons in H as [H|H]
           | H : _ ∈ [] |- _ => now apply elem_of_nil in H
           | H : Started _ = Started _ |- _ => injection H as -> ->
           | H : Started _ = Failed _ |- _ => discriminate H
           | H : Started _ = Fulfilled _ |- _ => discriminate H
           end; eauto.
Qed.

Section IndexGraphTarget.

Variable JSON_parse : string -> option JsVal.
Variable reduceDocs : list Document -> JsVal -> list Document.
Variable ensureIndexConfiguration : RunnableConfig -> IndexConfiguration.

(** X22. Whatever [indexDocs] hands to a store, it hands to the retriever
    that [makeRetriever] built from the very configuration of the run, and
    what it hands over is the batch the run settled on. *)
Theorem indexDocs_submits_to_configured_retriever (w : World)
    (state : IndexState) (config : option RunnableConfig)
    (retriever : VectorStoreRetriever) (batch : list Document) :
  Started (AddDocuments retriever batch)
  ∈ trace (indexDocs JSON_parse reduceDocs ensureIndexConfiguration
             w state config) ->
  exists cfg t,
    config = Some cfg
    /\ makeRetriever w cfg = (t, inr retriever)
    /\ batch_to_index JSON_parse reduceDocs ensureIndexConfiguration
         w state cfg batch.
Proof.
  destruct config as [cfg|];
    [|intros Hin; now apply elem_of_nil in Hin].
  destruct (docs state) as [|d ds] eqn:Hdocs.
  - rewrite (indexDocs_fallback _ _ _ w state cfg Hdocs).
    destruct (files w !! _) as [content|] eqn:Hfile.
    2:{ cbn [trace fst]. intros Hin.
        repeat (apply elem_of_cons in Hin as [Hin|Hin]; [discriminate Hin|]).
        now apply elem_of_nil in Hin. }
    destruct (JSON_parse content) as [raw|] eqn:Hparse.
    2:{ cbn [trace fst]. intros Hin.
        repeat (apply elem_of_cons in Hin as [Hin|Hin]; [discriminate Hin|]).
        now apply elem_of_nil in Hin. }
    cbn [trace fst app]. intros Hin.
    repeat (apply elem_of_cons in Hin as [Hin|Hin]; [discriminate Hin|]).
    apply submit_target in Hin as (-> & t & Hmk).
    exists cfg, t. split; [reflexivity|]. split; [exact Hmk|].
    right. split; [assumption|]. now exists content, raw.
  - rewrite indexDocs_supplied by congruence. intros Hin.
    apply submit_target in Hin as (-> & t & Hmk).
    exists cfg, t. split; [reflexivity|]. split; [exact Hmk|].
    left. split; [congruence | reflexivity].
Qed.

End IndexGraphTarget.

Lemma indexDocs_submits_to_configured_retriever_witness :
  exists t, makeRetriever local_world default_config = (t, inr local_retriever).
Proof.
  destruct (indexDocs_submits_to_configured_retriever
              parse_sample reduce_sample index_configuration_sample
              local_world one_doc_state (Some default_config)
              local_retriever [a_document])
    as (cfg & t & Hcfg & Hmk & _).
  - apply list_elem_of_here.
  - injection Hcfg as <-. exists t. exact Hmk.
Defined.
